(** * pysshutil: the Host wrapper, the server test module, the cache

    A shallow embedding of [sshutil/host.py] and [tests/test_server.py].
    Python objects become records, mutation becomes explicit state passing,
    and a raised exception becomes the [Raises] outcome of a call.  Calls
    into modules that are not part of the sources ([sshutil.cmd],
    [sshutil.conn], [sshutil.server], [sshutil.cache], paramiko, the socket
    layer) are answered by an environment record and leave an event in a
    trace, so that "how many sessions were opened" is a fact about the
    trace.  Time is counted in whole milliseconds.

    The Connection Cache itself has no source here; module [cache] models
    it from the specification, and says so at each definition. *)

From Stdlib Require Import ZArith List Lia Bool Ascii.
From stdpp Require Import base strings list gmap.

Local Open Scope string_scope.
Local Open Scope list_scope.
Local Open Scope Z_scope.

(** ** Python values shared by both modules *)

(** The exceptions that the embedded code raises or lets through. *)
Inductive Exn : Type :=
| SocketError (errno : Z)
| TypeError (msg : string)
| UnboundLocalError (name : string)
| AttributeError (msg : string)
| CalledProcessError (returncode : Z) (cmd : string) (output : string) (stderr : string)
| NeverOpened (host : string) (port : Z)
| ConnectError
| ChannelError
| OtherError (name : string).

(** What a call does: it returns a value or raises. *)
Inductive Outcome (A : Type) : Type :=
| Returns (a : A)
| Raises (e : Exn).

Arguments Returns {A} a.
Arguments Raises {A} e.

#[global] Instance Exn_eq_dec : EqDecision Exn.
Proof. solve_decision. Defined.

#[global] Instance Outcome_eq_dec {A} `{EqDecision A} : EqDecision (Outcome A).
Proof. solve_decision. Defined.

(** [errno.EADDRINUSE] (its Linux value). *)
Definition EADDRINUSE : Z := 98.

(** The interpreter running the code.  The two differ in one place that
    matters here: Python 3 deletes the name bound by [except ... as name]
    when the handler is left, Python 2 keeps it. *)
Inductive PyVersion : Type := Py2 | Py3.

(** ** tests/test_server.py *)

Module TestServer.

(** [(host, port)] as passed to [socket.connect_ex]. *)
Definition Addr : Type := (string * Z)%type.

(** Which cache object a session is opened with: the one handed to the
    test, or none given (the library's default). *)
Inductive CacheArg : Type := TestCache | DefaultCache.

(** Calls that leave the test module, in the order they happen. *)
Inductive Event : Type :=
| EvSocketNew
| EvConnectEx (addr : Addr) (at_ms : Z) (rc : Z)
| EvSleep (ms : Z)
| EvSocketClose
| EvServerNew (port : Z)
| EvSSHSession (port : Z) (cache : CacheArg)
| EvSessionClose
| EvCacheFlush
| EvServerClose
| EvServerJoin.

(** [server.SSHServer] as far as the tests use it: the bound port. *)
Record Server : Type := { port : Z }.

(** The world a test runs in: the clock read by [time.time] (in
    milliseconds) and the trace of calls made so far. *)
Record World : Type := { clock : Z; trace : list Event }.

(** What the world answers.
    - [connect_ex now addr]: the return code of [sock.connect_ex(addr)]
      issued at time [now]; 0 means connected.
    - [sleep_overrun now]: by how much [time.sleep(.1)] started at [now]
      oversleeps.
    - [SSHServer tr p]: constructing [server.SSHServer(..., port=p)] after
      the calls [tr]; [p = None] lets the server choose.
    - [ext_raises tr ev]: whether the call [ev] into [sshutil.conn],
      [sshutil.cache] or the server object raises. *)
Record Env : Type := {
  connect_ex : Z -> Addr -> Z;
  sleep_overrun : Z -> nat;
  SSHServer : list Event -> option Z -> Outcome Server;
  ext_raises : list Event -> Event -> option Exn
}.

(** Computations of the test module: they thread the world, may raise, and
    are cut off ([None]) when the loop budget [fuel] does not suffice. *)
Definition Eff (A : Type) : Type := World -> option (Outcome A * World).

Definition ret {A} (a : A) : Eff A := fun w => Some (Returns a, w).
Definition raise {A} (e : Exn) : Eff A := fun w => Some (Raises e, w).
Definition bind {A B} (m : Eff A) (k : A -> Eff B) : Eff B :=
  fun w =>
    match m w with
    | None => None
    | Some (Returns a, w') => k a w'
    | Some (Raises e, w') => Some (Raises e, w')
    end.

Notation "x <- m ;; k" := (bind m (fun x => k))
  (at level 100, m at next level, right associativity).
Notation "m ;;; k" := (bind m (fun _ => k))
  (at level 100, right associativity).

Definition log (ev : Event) (w : World) : World :=
  {| clock := clock w; trace := trace w ++ [ev] |}.

(** [time.sleep(.1)]. *)
Definition sleep_tenth (env : Env) (w : World) : World :=
  let d := 100 + Z.of_nat (sleep_overrun env (clock w)) in
  {| clock := clock w + d; trace := trace w ++ [EvSleep d] |}.

(** A call into a module outside the sources. *)
Definition ext (env : Env) (ev : Event) : Eff unit :=
  fun w =>
    match ext_raises env (trace w) ev with
    | Some e => Some (Raises e, w)
    | None => Some (Returns tt, log ev w)
    end.

(** The [while time.time() < expire] loop of [wait_port_open]. *)
Fixpoint poll (fuel : nat) (env : Env) (addr : Addr) (expire : Z) (w : World)
  : option (Outcome unit * World) :=
  match fuel with
  | O => None
  | S fuel' =>
      if clock w <? expire then
        let rc := connect_ex env (clock w) addr in
        let w1 := log (EvConnectEx addr (clock w) rc) w in
        if rc =? 0 then Some (Returns tt, w1)
        else poll fuel' env addr expire (sleep_tenth env w1)
      else Some (Raises (NeverOpened (fst addr) (snd addr)), w)
  end.

(** [wait_port_open(addr, timeout)].  The [finally] clause closes the
    socket on both exits. *)
Definition wait_port_open (fuel : nat) (env : Env) (addr : Addr) (timeout : Z) : Eff unit :=
  fun w =>
    let now := clock w in
    let expire := now + timeout in
    match poll fuel env addr expire (log EvSocketNew w) with
    | Some (r, w') => Some (r, log EvSocketClose w')
    | None => None
    end.

(** A call site of [wait_port_open].  The function has two required
    positional parameters; a call that passes only the address fails while
    binding its arguments. *)
Definition call_wait_port_open (fuel : nat) (env : Env) (addr : Addr) (timeout : option Z)
  : Eff unit :=
  match timeout with
  | Some t => wait_port_open fuel env addr t
  | None => raise (TypeError "wait_port_open() missing 1 required positional argument: 'timeout'")
  end.

(** [range(start, start + n)]. *)
Definition py_range (start : Z) (n : nat) : list Z :=
  map (fun i => start + Z.of_nat i) (seq 0 n).

(** The [for port in range(...)] loop of [_test_server_close] with its
    [try/except/else].  [error] is the local name bound by
    [except socket.error as error], unbound ([None]) until a handler binds
    it. *)
Fixpoint find_port (py : PyVersion) (env : Env) (ports : list Z)
    (error : option Exn) (w : World)
  : Outcome (Z * Server) * World :=
  match ports with
  | [] =>
      (* the loop's else clause: raise error *)
      match error with
      | Some e => (Raises e, w)
      | None => (Raises (UnboundLocalError "error"), w)
      end
  | p :: rest =>
      match SSHServer env (trace w) (Some p) with
      | Returns ns => (Returns (p, ns), log (EvServerNew p) w)
      | Raises (SocketError errno) =>
          if errno =? EADDRINUSE then
            find_port py env rest
              (match py with Py2 => Some (SocketError errno) | Py3 => None end) w
          else (Raises (SocketError errno), w)
      | Raises e => (Raises e, w)
      end
  end.

Definition test_port_can_start : Z := 10000.

(** One round of connect, close, flush, close and join. *)
Definition connect_and_shut_down (fuel : nat) (env : Env) (p : Z) : Eff unit :=
  call_wait_port_open fuel env ("127.0.0.1", p) None ;;;
  ext env (EvSSHSession p DefaultCache) ;;;
  ext env EvSessionClose ;;;
  ext env EvCacheFlush ;;;
  ext env EvServerClose ;;;
  ext env EvServerJoin.

(** The [for i in range(0, 10)] loop of [_test_server_close]. *)
Fixpoint rebind_loop (n : nat) (fuel : nat) (env : Env) (p : Z) : Eff unit :=
  match n with
  | O => ret tt
  | S n' =>
      (fun w =>
         match SSHServer env (trace w) (Some p) with
         | Returns _ => Some (Returns tt, log (EvServerNew p) w)
         | Raises e => Some (Raises e, w)
         end) ;;;
      connect_and_shut_down fuel env p ;;;
      rebind_loop n' fuel env p
  end.

(** [_test_server_close(cache)].  The argument is used for
    [cache.flush()] alone, which shows in the trace as [EvCacheFlush];
    the controller object and the log lines have no part in the run. *)
Definition _test_server_close (py : PyVersion) (fuel : nat) (env : Env) : Eff unit :=
  found <- (fun w => Some (find_port py env (py_range test_port_can_start 100) None w)) ;;
  let p := fst found in
  connect_and_shut_down fuel env p ;;;
  rebind_loop 10 fuel env p.

(** [[f() for unused in range(0, n)]] followed by closing each session. *)
Fixpoint open_sessions (n : nat) (env : Env) (p : Z) (c : CacheArg) : Eff unit :=
  match n with
  | O => ret tt
  | S n' => ext env (EvSSHSession p c) ;;; open_sessions n' env p c
  end.

Fixpoint close_sessions (n : nat) (env : Env) : Eff unit :=
  match n with
  | O => ret tt
  | S n' => ext env EvSessionClose ;;; close_sessions n' env
  end.

(** [_test_multi_open(client_cache)]; [NC_PORT] is [None].  Only the
    first 25 sessions are opened with [cache=client_cache]. *)
Definition _test_multi_open (env : Env) : Eff unit :=
  ns <- (fun w =>
           match SSHServer env (trace w) None with
           | Returns ns => Some (Returns ns, log (EvServerNew (port ns)) w)
           | Raises e => Some (Raises e, w)
           end) ;;
  let p := port ns in
  open_sessions 25 env p TestCache ;;;
  close_sessions 25 env ;;;
  ext env (EvSSHSession p DefaultCache) ;;;
  open_sessions 25 env p DefaultCache ;;;
  close_sessions 25 env ;;;
  ext env EvCacheFlush ;;;
  open_sessions 25 env p DefaultCache ;;;
  close_sessions 25 env ;;;
  ext env EvCacheFlush ;;;
  ext env EvServerClose ;;;
  ext env EvServerJoin.


(** The [connect_ex] calls recorded in a trace, with their return codes. *)
Definition connect_codes (tr : list Event) : list Z :=
  omap (fun ev => match ev with EvConnectEx _ _ rc => Some rc | _ => None end) tr.


(** The port [p] is in use: binding it fails with EADDRINUSE. *)
Definition busy (env : Env) (w : World) (p : Z) : Prop :=
  SSHServer env (trace w) (Some p) = Raises (SocketError EADDRINUSE).

(** Polls that fit into [remaining] milliseconds, a tenth of a second
    apart. *)
Definition rounds (remaining : Z) : nat := Z.to_nat ((remaining + 99) / 100).

(** A loop budget that covers a wait of [timeout] milliseconds. *)
Definition enough_fuel (timeout : Z) : nat := S (rounds timeout).

(** Sample worlds.  [boot]: the clock at 0 and nothing done yet.  [calm]:
    every port can be bound, every connect succeeds and nothing raises; a
    server given no port takes 2222.  [all_busy]: every bind fails
    with EADDRINUSE.  [opens_at t]: like [calm], but connects are refused
    (ECONNREFUSED, 111) before time [t]. *)
Definition boot : World := {| clock := 0; trace := [] |}.

Definition calm : Env :=
  {| connect_ex := fun _ _ => 0;
     sleep_overrun := fun _ => 0%nat;
     SSHServer := fun _ p => Returns {| port := default 2222 p |};
     ext_raises := fun _ _ => None |}.

Definition all_busy : Env :=
  {| connect_ex := fun _ _ => 0;
     sleep_overrun := fun _ => 0%nat;
     SSHServer := fun _ _ => Raises (SocketError EADDRINUSE);
     ext_raises := fun _ _ => None |}.

Definition opens_at (t : Z) : Env :=
  {| connect_ex := fun now _ => if now <? t then 111 else 0;
     sleep_overrun := fun _ => 0%nat;
     SSHServer := fun _ p => Returns {| port := default 2222 p |};
     ext_raises := fun _ _ => None |}.

(** *** The module's globals and its smaller tests *)

(** The two pieces of module state: the global [ssh_server] and the
    function attribute [setup_module.init]. *)
Record Globals : Type := { ssh_server : option Server; init : bool }.

(** The state right after import. *)
Definition at_import : Globals := {| ssh_server := None; init := false |}.

(** [setup_module(module)].  With a server already in place it only logs
    an error; otherwise it constructs one (no port given) and sets the
    flag.  A constructor that raises leaves both globals as they were. *)
Definition setup_module (env : Env) (g : Globals) (w : World)
  : Outcome unit * Globals * World :=
  match ssh_server g with
  | Some _ => (Returns tt, g, w)
  | None =>
      match SSHServer env (trace w) None with
      | Returns ns =>
          (Returns tt, {| ssh_server := Some ns; init := true |},
           log (EvServerNew (port ns)) w)
      | Raises e => (Raises e, g, w)
      end
  end.

(** [cleanup_module(module)]: drops the server when the flag is set; the
    flag itself is not reset. *)
Definition cleanup_module (g : Globals) : Globals :=
  if init g then {| ssh_server := None; init := init g |} else g.

(** [ssh_server.port], which fails on [None]. *)
Definition server_port (g : Globals) : Eff Z :=
  match ssh_server g with
  | Some srv => ret (port srv)
  | None => raise (AttributeError "'NoneType' object has no attribute 'port'")
  end.

(** [test_close()]; the session object counts as true in [assert
    session]. *)
Definition test_close (env : Env) (g : Globals) : Eff unit :=
  p <- server_port g ;;
  ext env (EvSSHSession p DefaultCache) ;;;
  ext env EvSessionClose.

(** The [for unused in range(0, n)] loop of [test_multi_session]. *)
Fixpoint multi_session_loop (n : nat) (env : Env) (g : Globals) : Eff unit :=
  match n with
  | O => ret tt
  | S n' =>
      p <- server_port g ;;
      ext env (EvSSHSession p DefaultCache) ;;;
      multi_session_loop n' env g
  end.

(** [test_multi_session()]. *)
Definition test_multi_session (env : Env) (g : Globals) : Eff unit :=
  multi_session_loop 10 env g.

(** [n] calls of [setup_module] in a row. *)
Fixpoint setup_times (n : nat) (env : Env) (g : Globals) (w : World) : Globals * World :=
  match n with
  | O => (g, w)
  | S n' =>
      let '(_, g1, w1) := setup_module env g w in
      setup_times n' env g1 w1
  end.

(** *** Reading a trace *)

(** The world [w] after the further calls [evs], the clock untouched. *)
Definition extend (w : World) (evs : list Event) : World :=
  {| clock := clock w; trace := trace w ++ evs |}.

(** The sessions a trace opens, by the cache they were given, and the
    number of session closes, cache flushes and server shutdowns in it. *)
Definition sessions_started (tr : list Event) : list CacheArg :=
  omap (fun ev => match ev with EvSSHSession _ c => Some c | _ => None end) tr.

Definition sessions_closed (tr : list Event) : nat :=
  length (omap (fun ev => match ev with EvSessionClose => Some tt | _ => None end) tr).

Definition servers_started (tr : list Event) : list Z :=
  omap (fun ev => match ev with EvServerNew p => Some p | _ => None end) tr.

(** The environment never lets a call into the library raise. *)
Definition quiet (env : Env) : Prop := forall tr ev, ext_raises env tr ev = None.

(** More sample worlds.  [busy_below t]: ports below [t] are in use, the
    others can be bound.  [denied]: every bind fails with EACCES (13). *)
Definition busy_below (t : Z) : Env :=
  {| connect_ex := fun _ _ => 0;
     sleep_overrun := fun _ => 0%nat;
     SSHServer := fun _ p =>
       match p with
       | Some q => if q <? t then Raises (SocketError EADDRINUSE) else Returns {| port := q |}
       | None => Returns {| port := 2222 |}
       end;
     ext_raises := fun _ _ => None |}.

Definition denied : Env :=
  {| connect_ex := fun _ _ => 0;
     sleep_overrun := fun _ => 0%nat;
     SSHServer := fun _ _ => Raises (SocketError 13);
     ext_raises := fun _ _ => None |}.

End TestServer.

(** ** sshutil/host.py *)

Module host.

(** The [cache] argument: [Host] only passes it on. *)
Inductive Cache : Type :=
| SSHConnectionCache (desc : string)
| SSHNoConnectionCache.

(** The keyword arguments frozen into the two [functools.partial] objects
    of a remote host. *)
Record ConnArgs : Type := {
  ca_host : string;
  ca_port : Z;
  ca_username : option string;
  ca_password : option string;
  ca_debug : bool;
  ca_cache : option Cache;
  ca_proxycmd : option string
}.

(** [self.cmd_class]: [partial(SSHCommand, host=..., ...)] or
    [partial(ShellCommand, debug=debug)]. *)
Inductive CmdClass : Type :=
| SSHCommand (kw : ConnArgs)
| ShellCommand (debug : bool).

(** [self.session_class] when it is not [None]:
    [partial(SSHClientSession, host=..., ...)]. *)
Inductive SessionClass : Type :=
| SSHClientSession (kw : ConnArgs).

(** A client session, known by its channel. *)
Record Session : Type := { chan : nat }.

(** paramiko's [SFTPClient(sock)], known by the channel it was built on. *)
Record SFTPClient : Type := { sock : nat }.

(** Calls that leave the module and went through. *)
Inductive Event : Type :=
| EvExecute (cls : CmdClass) (cmd : string)
| EvSession (cls : SessionClass) (subsystem : string) (s : Session)
| EvSFTPClient (ch : nat)
| EvChdir (ch : nat) (path : string)
| EvPut (ch : nat) (localfile remotefile : string).

(** A [Host] object: its five attributes. *)
Record Host : Type := {
  sftp : option SFTPClient;
  sftp_session : option Session;
  cwd : string;
  cmd_class : CmdClass;
  session_class : option SessionClass
}.

(** What the collaborators answer, given the calls [tr] made so far.
    - [shell_escape_single_quote]: the helper of [sshutil.cmd].
    - [execute tr cls cmd]: running the command line [cmd] through the
      command class [cls]; [Returns (status, stdout, stderr)] when the
      command ran, [Raises] when it could not be run.
    - [open_session tr cls subsystem]: [cls(subsystem=subsystem)].
    - [sftp_client_raises tr ch]: whether [SFTPClient(chan)] raises.
    - [chdir_raises], [put_raises]: the same for [sftp.chdir] and
      [sftp.put]. *)
Record Env : Type := {
  shell_escape_single_quote : string -> string;
  execute : list Event -> CmdClass -> string -> Outcome (Z * string * string);
  open_session : list Event -> SessionClass -> string -> Outcome Session;
  sftp_client_raises : list Event -> nat -> option Exn;
  chdir_raises : list Event -> nat -> string -> option Exn;
  put_raises : list Event -> nat -> string -> string -> option Exn
}.

(** Python's truth value of a string-or-None argument. *)
Definition truthy (s : option string) : bool :=
  match s with
  | None => false
  | Some s => negb (String.eqb s "")
  end.

(** [str.strip()] over ASCII white space. *)
Fixpoint lstrip (s : string) : string :=
  match s with
  | EmptyString => EmptyString
  | String a s' => if Ascii.is_space a then lstrip s' else s
  end.

Definition strip (s : string) : string :=
  String.rev (lstrip (String.rev (lstrip s))).

(** Modelled from the spec: the command objects of [sshutil.cmd], which is
    not among the sources.  [run_status_stderr] hands back exit code,
    stdout and stderr of a command that ran, whatever the exit code;
    [run_status] drops stderr; [run] and [run_stderr] raise
    [CalledProcessError], carrying exit code and captured output, when the
    exit code is not zero (the [:return:] and [:raises:] lines of the
    docstrings in [host.py]).  A command that could not be run raises
    whatever [execute] raises. *)
Definition Command_run_status_stderr (env : Env) (cls : CmdClass) (cmd : string)
    (tr : list Event) : Outcome (Z * string * string) * list Event :=
  match execute env tr cls cmd with
  | Returns r => (Returns r, tr ++ [EvExecute cls cmd])
  | Raises e => (Raises e, tr)
  end.

Definition Command_run_status (env : Env) (cls : CmdClass) (cmd : string)
    (tr : list Event) : Outcome (Z * string) * list Event :=
  match Command_run_status_stderr env cls cmd tr with
  | (Returns (status, out, _), tr') => (Returns (status, out), tr')
  | (Raises e, tr') => (Raises e, tr')
  end.

Definition Command_run_stderr (env : Env) (cls : CmdClass) (cmd : string)
    (tr : list Event) : Outcome (string * string) * list Event :=
  match Command_run_status_stderr env cls cmd tr with
  | (Returns (status, out, err), tr') =>
      if status =? 0 then (Returns (out, err), tr')
      else (Raises (CalledProcessError status cmd out err), tr')
  | (Raises e, tr') => (Raises e, tr')
  end.

Definition Command_run (env : Env) (cls : CmdClass) (cmd : string)
    (tr : list Event) : Outcome string * list Event :=
  match Command_run_status_stderr env cls cmd tr with
  | (Returns (status, out, err), tr') =>
      if status =? 0 then (Returns out, tr')
      else (Raises (CalledProcessError status cmd out err), tr')
  | (Raises e, tr') => (Raises e, tr')
  end.

(** [Host.__init__(server, port, cwd, username, password, debug, cache,
    proxycmd)]. *)
Definition __init__ (env : Env) (server : option string) (port : Z)
    (cwd0 : option string) (username password : option string) (debug : bool)
    (cache : option Cache) (proxycmd : option string) (tr : list Event)
  : Outcome Host * list Event :=
  let kw s := {| ca_host := s; ca_port := port; ca_username := username;
                 ca_password := password; ca_debug := debug; ca_cache := cache;
                 ca_proxycmd := proxycmd |} in
  let classes :=
    match server with
    | Some s =>
        if truthy server
        then (SSHCommand (kw s), Some (SSHClientSession (kw s)))
        else (ShellCommand debug, None)
    | None => (ShellCommand debug, None)
    end in
  let mk d := {| sftp := None; sftp_session := None; cwd := d;
                 cmd_class := fst classes; session_class := snd classes |} in
  match cwd0 with
  | Some d =>
      if truthy cwd0 then (Returns (mk d), tr)
      else
        match Command_run env (fst classes) "pwd" tr with
        | (Returns out, tr') => (Returns (mk (strip out)), tr')
        | (Raises e, tr') => (Raises e, tr')
        end
  | None =>
      match Command_run env (fst classes) "pwd" tr with
      | (Returns out, tr') => (Returns (mk (strip out)), tr')
      | (Raises e, tr') => (Raises e, tr')
      end
  end.

(** [Host._get_sftp()].  Every exception modelled here derives from
    [Exception], so the [try/except Exception: pass] around the
    construction of the client swallows whatever it raises. *)
Definition _get_sftp (env : Env) (self : Host) (tr : list Event)
  : Outcome SFTPClient * Host * list Event :=
  match sftp self with
  | Some c => (Returns c, self, tr)
  | None =>
      match session_class self with
      | None => (Raises (TypeError "'NoneType' object is not callable"), self, tr)
      | Some cls =>
          match open_session env tr cls "sftp" with
          | Raises e => (Raises e, self, tr)
          | Returns s =>
              let self1 := {| sftp := sftp self; sftp_session := Some s; cwd := cwd self;
                              cmd_class := cmd_class self;
                              session_class := session_class self |} in
              let tr1 := tr ++ [EvSession cls "sftp" s] in
              let '(self2, tr2) :=
                match sftp_client_raises env tr1 (chan s) with
                | None =>
                    ({| sftp := Some {| sock := chan s |}; sftp_session := Some s;
                        cwd := cwd self; cmd_class := cmd_class self;
                        session_class := session_class self |},
                     tr1 ++ [EvSFTPClient (chan s)])
                | Some _ => (self1, tr1)
                end in
              match sftp self2 with
              | None =>
                  (Raises (AttributeError "'NoneType' object has no attribute 'chdir'"),
                   self2, tr2)
              | Some c =>
                  match chdir_raises env tr2 (sock c) (cwd self2) with
                  | Some e => (Raises e, self2, tr2)
                  | None => (Returns c, self2, tr2 ++ [EvChdir (sock c) (cwd self2)])
                  end
              end
          end
      end
  end.

(** [Host._get_cmd(command)]. *)
Definition _get_cmd (env : Env) (self : Host) (command : string) : string :=
  "bash -c 'cd " +:+ cwd self +:+ " && " +:+ shell_escape_single_quote env command +:+ "'".

(** [Host.run_status_stderr], [run_status], [run_stderr] and [run]. *)
Definition run_status_stderr (env : Env) (self : Host) (command : string)
    (tr : list Event) : Outcome (Z * string * string) * list Event :=
  Command_run_status_stderr env (cmd_class self) (_get_cmd env self command) tr.

Definition run_status (env : Env) (self : Host) (command : string)
    (tr : list Event) : Outcome (Z * string) * list Event :=
  Command_run_status env (cmd_class self) (_get_cmd env self command) tr.

Definition run_stderr (env : Env) (self : Host) (command : string)
    (tr : list Event) : Outcome (string * string) * list Event :=
  Command_run_stderr env (cmd_class self) (_get_cmd env self command) tr.

Definition run (env : Env) (self : Host) (command : string)
    (tr : list Event) : Outcome string * list Event :=
  Command_run env (cmd_class self) (_get_cmd env self command) tr.

(** [Host.copy_to(localfile, remotefile)]; it returns [None]. *)
Definition copy_to (env : Env) (self : Host) (localfile remotefile : string)
    (tr : list Event) : Outcome unit * Host * list Event :=
  match session_class self with
  | Some _ =>
      match _get_sftp env self tr with
      | (Returns c, self', tr') =>
          match put_raises env tr' (sock c) localfile remotefile with
          | Some e => (Raises e, self', tr')
          | None => (Returns tt, self', tr' ++ [EvPut (sock c) localfile remotefile])
          end
      | (Raises e, self', tr') => (Raises e, self', tr')
      end
  | None => (Returns tt, self, tr)
  end.

(** The sessions opened according to a trace. *)
Definition sessions_opened (tr : list Event) : list Session :=
  omap (fun ev => match ev with EvSession _ _ s => Some s | _ => None end) tr.

(** [n] calls of [_get_sftp] in a row; the results are listed in call
    order. *)
Fixpoint get_sftp_times (n : nat) (env : Env) (self : Host) (tr : list Event)
  : list (Outcome SFTPClient) * Host * list Event :=
  match n with
  | O => ([], self, tr)
  | S n' =>
      let '(r, self1, tr1) := _get_sftp env self tr in
      let '(rs, self2, tr2) := get_sftp_times n' env self1 tr1 in
      (r :: rs, self2, tr2)
  end.

(** *** Sample hosts *)

(** The helper of [sshutil.cmd] as the library ships it: every single quote
    is closed, quoted on its own between double quotes, and reopened. *)
Fixpoint escape_single_quote (s : string) : string :=
  match s with
  | EmptyString => EmptyString
  | String a s' =>
      if Ascii.eqb a "'"%char
      then String "'" (String (Ascii.ascii_of_nat 34) (String "'"
             (String (Ascii.ascii_of_nat 34) (String "'" (escape_single_quote s')))))
      else String a (escape_single_quote s')
  end.

(** What [grep] prints for a file that is not there, newline included. *)
Definition grep_stderr : string :=
  String.app "grep: doesnt-exist: No such file or directory"
    (String (Ascii.ascii_of_nat 10) "").

(** A machine whose shell answers three command lines: [pwd], and from
    [/home/user] the two commands of the docstring of
    [run_status_stderr].  Sessions open on channel 7; [sftp_works] tells
    whether an SFTP client can be built on a channel. *)
Definition sample_env (sftp_works : bool) : Env :=
  {| shell_escape_single_quote := escape_single_quote;
     execute := fun _ _ cmd =>
       if String.eqb cmd "pwd" then Returns (0, String.app "/home/user" (String (Ascii.ascii_of_nat 10) ""), "")
       else if String.eqb cmd "bash -c 'cd /home/user && ls -d /etc'"
       then Returns (0, String.app "/etc" (String (Ascii.ascii_of_nat 10) ""), "")
       else if String.eqb cmd "bash -c 'cd /home/user && grep foobar doesnt-exist'"
       then Returns (2, "", grep_stderr)
       else Returns (127, "", "");
     open_session := fun _ _ _ => Returns {| chan := 7 |};
     sftp_client_raises := fun _ _ =>
       if sftp_works then None else Some (OtherError "SSHException");
     chdir_raises := fun _ _ _ => None;
     put_raises := fun _ _ _ _ => None |}.

(** [Host()] on that machine. *)
Definition local_host : Host :=
  {| sftp := None; sftp_session := None; cwd := "/home/user";
     cmd_class := ShellCommand false; session_class := None |}.

Definition example_kw : ConnArgs :=
  {| ca_host := "example.org"; ca_port := 22; ca_username := None;
     ca_password := None; ca_debug := false; ca_cache := None;
     ca_proxycmd := None |}.

(** [Host("example.org", cwd="/home/user")]. *)
Definition remote_host : Host :=
  {| sftp := None; sftp_session := None; cwd := "/home/user";
     cmd_class := SSHCommand example_kw;
     session_class := Some (SSHClientSession example_kw) |}.

(** The remote host once its SFTP client is in place. *)
Definition remote_host_with_sftp : Host :=
  {| sftp := Some {| sock := 7 |}; sftp_session := Some {| chan := 7 |};
     cwd := "/home/user"; cmd_class := SSHCommand example_kw;
     session_class := Some (SSHClientSession example_kw) |}.

(** *** Sequences of calls on one Host *)

(** The two methods that can change a Host. *)
Inductive Call : Type :=
| CallGetSftp
| CallCopyTo (localfile remotefile : string).

(** One call, its result dropped. *)
Definition call (env : Env) (c : Call) (self : Host) (tr : list Event) : Host * list Event :=
  match c with
  | CallGetSftp => let '(_, self', tr') := _get_sftp env self tr in (self', tr')
  | CallCopyTo localfile remotefile =>
      let '(_, self', tr') := copy_to env self localfile remotefile tr in (self', tr')
  end.

(** Calls made one after the other on the same Host. *)
Fixpoint calls (env : Env) (cs : list Call) (self : Host) (tr : list Event)
  : Host * list Event :=
  match cs with
  | [] => (self, tr)
  | c :: cs' => let '(self1, tr1) := call env c self tr in calls env cs' self1 tr1
  end.

(** The SFTP clients built, the directory changes and the uploads that a
    trace records. *)
Definition clients_built (tr : list Event) : list nat :=
  omap (fun ev => match ev with EvSFTPClient ch => Some ch | _ => None end) tr.

Definition chdirs (tr : list Event) : list (nat * string) :=
  omap (fun ev => match ev with EvChdir ch d => Some (ch, d) | _ => None end) tr.

Definition puts (tr : list Event) : list (nat * string * string) :=
  omap (fun ev => match ev with EvPut ch l r => Some (ch, l, r) | _ => None end) tr.

(** What a call may do to a Host, [new] being the calls it adds to the
    trace: the three constructor-set attributes stay; with a client stored
    nothing changes and no session, client or directory change is added;
    without one, at most one session is opened, and either no client is
    stored and none was built, or one is stored, built on the one session
    opened, with at most one directory change. *)
Definition call_effect (self self' : Host) (new : list Event) : Prop :=
  cwd self' = cwd self /\ cmd_class self' = cmd_class self /\
  session_class self' = session_class self /\
  match sftp self with
  | Some c =>
      self' = self /\ sessions_opened new = [] /\ clients_built new = [] /\ chdirs new = []
  | None =>
      (length (sessions_opened new) <= 1)%nat /\
      ((sftp self' = None /\ clients_built new = [] /\ chdirs new = []) \/
       (exists c, sftp self' = Some c /\ sftp_session self' = Some {| chan := sock c |} /\
          sessions_opened new = [{| chan := sock c |}] /\
          clients_built new = [sock c] /\ (length (chdirs new) <= 1)%nat))
  end.

(** Whether a string begins, or ends, with white space. *)
Definition starts_with_space (s : string) : bool :=
  match s with
  | EmptyString => false
  | String a _ => Ascii.is_space a
  end.

Definition ends_with_space (s : string) : bool := starts_with_space (String.rev s).

(** The sample machine with a server on which the Host's directory does
    not exist: [sftp.chdir] raises. *)
Definition no_dir_env : Env :=
  {| shell_escape_single_quote := escape_single_quote;
     execute := execute (sample_env true);
     open_session := open_session (sample_env true);
     sftp_client_raises := fun _ _ => None;
     chdir_raises := fun _ _ _ => Some (OtherError "IOError");
     put_raises := fun _ _ _ _ => None |}.

End host.

(** ** The Connection Cache *)

Module cache.

(** Modelled from the spec: the Connection Cache of [sshutil.cache] and the
    Transport Provider behind it; neither is among the sources.  The model
    follows sections 3 and 4.1 of the specification: a mapping from
    ConnectionKey to at most one Transport, reference counts moved by
    Session open and [release], and [flush] in its blocking variant (wait
    until no Session is outstanding, close every Transport, clear the
    mapping).  A Transport is known by the handle identity the provider
    assigned to it; the provider numbers connections in the order it opens
    them. *)
Definition ConnectionKey : Type := (string * Z * string * string * option string)%type.

Record State : Type := {
  next_handle : nat;
  open_handles : gset nat;
  closed_handles : gset nat;
  table : gmap ConnectionKey nat;
  refs : gmap nat nat
}.

#[global] Instance State_eq_dec : EqDecision State.
Proof. solve_decision. Defined.

Definition empty : State :=
  {| next_handle := 0; open_handles := ∅; closed_handles := ∅; table := ∅; refs := ∅ |}.

(** Modelled from the spec: the provider's [connect]; [connects k] tells
    whether connecting and authenticating to [k] succeeds.  On failure
    nothing is cached. *)
Definition create (connects : ConnectionKey -> bool) (k : ConnectionKey) (st : State)
  : Outcome nat * State :=
  if connects k then
    let h := next_handle st in
    (Returns h,
     {| next_handle := S h;
        open_handles := {[h]} ∪ open_handles st;
        closed_handles := closed_handles st;
        table := <[k := h]> (table st);
        refs := <[h := 0%nat]> (refs st) |})
  else (Raises ConnectError, st).

(** Modelled from the spec: [acquire(key)] returns the Transport cached for
    the key if there is one and it is open, and creates one otherwise. *)
Definition acquire (connects : ConnectionKey -> bool) (k : ConnectionKey) (st : State)
  : Outcome nat * State :=
  match table st !! k with
  | Some h =>
      if decide (h ∈ open_handles st) then (Returns h, st)
      else create connects k st
  | None => create connects k st
  end.

Definition refcount (st : State) (h : nat) : nat := default 0%nat (refs st !! h).

Definition set_refs (st : State) (r : gmap nat nat) : State :=
  {| next_handle := next_handle st; open_handles := open_handles st;
     closed_handles := closed_handles st; table := table st; refs := r |}.

(** Modelled from the spec: opening a Session on an acquired Transport
    takes one reference; on a Transport that is not open it fails. *)
Definition session_open (h : nat) (st : State) : Outcome unit * State :=
  if decide (h ∈ open_handles st)
  then (Returns tt, set_refs st (<[h := S (refcount st h)]> (refs st)))
  else (Raises ChannelError, st).

(** Modelled from the spec: [release(transport)] gives one reference back
    and closes nothing. *)
Definition release (h : nat) (st : State) : State :=
  set_refs st (<[h := Nat.pred (refcount st h)]> (refs st)).

(** The Transports the cache holds. *)
Definition cached (st : State) : gset nat := map_img (table st).

(** Modelled from the spec: [flush()].  It returns once no Session is
    outstanding on a cached Transport ([None]: it is still blocked); then
    every cached Transport is closed and the mapping is cleared. *)
Definition flush (st : State) : option State :=
  if decide (set_Forall (fun h => refcount st h = 0%nat) (cached st)) then
    Some {| next_handle := next_handle st;
            open_handles := open_handles st ∖ cached st;
            closed_handles := closed_handles st ∪ cached st;
            table := ∅;
            refs := refs st |}
  else None.

(** The underlying link of a Transport goes away: the provider reports it
    closed. *)
Definition link_down (h : nat) (st : State) : State :=
  if decide (h ∈ open_handles st) then
    {| next_handle := next_handle st;
       open_handles := open_handles st ∖ {[h]};
       closed_handles := closed_handles st ∪ {[h]};
       table := table st; refs := refs st |}
  else st.

(** What happens to a cache, one call after another. *)
Inductive Op : Type :=
| OpAcquire (k : ConnectionKey)
| OpSessionOpen (h : nat)
| OpRelease (h : nat)
| OpFlush
| OpLinkDown (h : nat).

Definition step (connects : ConnectionKey -> bool) (op : Op) (st : State) : option State :=
  match op with
  | OpAcquire k => Some (snd (acquire connects k st))
  | OpSessionOpen h => Some (snd (session_open h st))
  | OpRelease h => Some (release h st)
  | OpFlush => flush st
  | OpLinkDown h => Some (link_down h st)
  end.

Fixpoint run (connects : ConnectionKey -> bool) (ops : list Op) (st : State) : option State :=
  match ops with
  | [] => Some st
  | op :: ops' =>
      match step connects op st with
      | Some st' => run connects ops' st'
      | None => None
      end
  end.

Definition reachable (connects : ConnectionKey -> bool) (st : State) : Prop :=
  exists ops, run connects ops empty = Some st.

(** Handles are below the provider's counter, and no Transport is both
    open and closed. *)
Definition wf (st : State) : Prop :=
  (forall h, h ∈ open_handles st -> (h < next_handle st)%nat) /\
  (forall h, h ∈ closed_handles st -> (h < next_handle st)%nat) /\
  (forall h, h ∈ open_handles st -> h ∉ closed_handles st) /\
  (forall k h, table st !! k = Some h -> (h < next_handle st)%nat).

(** Every cached Transport was opened at or after the count [n0]. *)
Definition cached_since (n0 : nat) (st : State) : Prop :=
  (n0 <= next_handle st)%nat /\
  (forall k h, table st !! k = Some h -> (n0 <= h)%nat).

(** *** The multi-open scenario *)

(** A provider that lets everyone in, the key of the test server, and the
    first phase of [_test_multi_open] seen from the cache: one acquire,
    25 Sessions opened on the Transport, all 25 released. *)
Definition anyone : ConnectionKey -> bool := fun _ => true.

Definition test_key : ConnectionKey := ("127.0.0.1", 2222, "user", "admin", None).

Definition churn : list Op :=
  OpAcquire test_key :: replicate 25 (OpSessionOpen 0) ++ replicate 25 (OpRelease 0).

Definition after_churn : State := default empty (run anyone churn empty).

Definition after_flush : State := default empty (flush after_churn).

End cache.

(** * Properties of tests/test_server.py *)

Module TestServerFacts.
Import TestServer.

Lemma rounds_nonpos (r : Z) : r <= 0 -> rounds r = 0%nat.
Proof.
  intros Hr. unfold rounds.
  assert ((r + 99) / 100 <= 0) by (apply Z.lt_succ_r, Z.div_lt_upper_bound; lia).
  lia.
Qed.

Lemma rounds_step (r d : Z) : 0 < r -> 100 <= d -> (S (rounds (r - d)) <= rounds r)%nat.
Proof.
  intros Hr Hd. unfold rounds.
  assert (H1 : (r - d + 99) / 100 <= (r - 100 + 99) / 100)
    by (apply Z.div_le_mono; lia).
  assert (H2 : (r - 100 + 99) / 100 = (r + 99) / 100 - 1).
  { replace (r - 100 + 99) with ((r + 99) + (-1) * 100) by lia.
    rewrite Z.div_add by lia. lia. }
  assert (H3 : 1 <= (r + 99) / 100)
    by (apply Z.div_le_lower_bound; lia).
  lia.
Qed.

Lemma connect_codes_app (a b : list Event) :
  connect_codes (a ++ b) = connect_codes a ++ connect_codes b.
Proof. unfold connect_codes. apply omap_app. Qed.




(** *** The port search of [_test_server_close] *)

Section FindPort.
Variable env : Env.
Variable w : World.

(** A port in use is skipped: the search goes on with the next one. *)
Lemma find_port_retries py p rest error :
  busy env w p ->
  find_port py env (p :: rest) error w
  = find_port py env rest
      (match py with Py2 => Some (SocketError EADDRINUSE) | Py3 => None end) w.
Proof. unfold busy. intros Hb. simpl. rewrite Hb. reflexivity. Qed.

(** X2.  The first port that can be bound ends the search: with every
    candidate before it in use, the search returns that port and the
    server constructed on it, and records that one construction. *)
Lemma find_port_first_free py taken p ns rest error :
  Forall (busy env w) taken ->
  SSHServer env (trace w) (Some p) = Returns ns ->
  find_port py env (taken ++ p :: rest) error w = (Returns (p, ns), log (EvServerNew p) w).
Proof.
  intros Htaken Hfree. revert error.
  induction Htaken as [|q taken Hq _ IH]; intros error; simpl.
  - rewrite Hfree. reflexivity.
  - rewrite Hq. simpl. apply IH.
Qed.

(** X3.  Any other socket error, and any other exception, ends the search
    at once and reaches the caller: the candidates after it are not
    tried and nothing is recorded. *)
Lemma find_port_fatal py taken p e rest error :
  Forall (busy env w) taken ->
  SSHServer env (trace w) (Some p) = Raises e ->
  e <> SocketError EADDRINUSE ->
  find_port py env (taken ++ p :: rest) error w = (Raises e, w).
Proof.
  intros Htaken Hfail Hne. revert error.
  induction Htaken as [|q taken Hq _ IH]; intros error; simpl.
  - rewrite Hfail. destruct e; try reflexivity.
    destruct (Z.eqb_spec errno EADDRINUSE) as [->|]; [congruence|reflexivity].
  - rewrite Hq. simpl. apply IH.
Qed.

(** X4.  With every candidate in use, Python 2 raises the error seen
    last, the EADDRINUSE of the last candidate, and no server exists. *)
Lemma find_port_exhausted_py2 ports error :
  ports <> [] -> Forall (busy env w) ports ->
  find_port Py2 env ports error w = (Raises (SocketError EADDRINUSE), w).
Proof.
  intros Hne Hall. revert error Hne.
  induction Hall as [|p ports Hp Hall IH]; intros error Hne; [congruence|].
  rewrite find_port_retries by exact Hp.
  destruct ports as [|q ports]; [reflexivity|].
  apply IH. discriminate.
Qed.

(** Python 3 has dropped the name [error] by then. *)
Lemma find_port_exhausted_py3 ports error :
  ports <> [] -> Forall (busy env w) ports ->
  find_port Py3 env ports error w = (Raises (UnboundLocalError "error"), w).
Proof.
  intros Hne Hall. revert error Hne.
  induction Hall as [|p ports Hp Hall IH]; intros error Hne; [congruence|].
  rewrite find_port_retries by exact Hp.
  destruct ports as [|q ports]; [reflexivity|].
  apply IH. discriminate.
Qed.
End FindPort.

(** C4.  With all hundred candidate ports 10000..10099 in use, the search
    of [_test_server_close] leaves its loop without a server and, under
    Python 3, raises [UnboundLocalError] for the name [error] instead of
    the bind error seen last. *)
Theorem test_server_close_range_exhausted (fuel : nat) (w : World) :
  _test_server_close Py3 fuel all_busy w = Some (Raises (UnboundLocalError "error"), w).
Proof. reflexivity. Qed.

(** *** [wait_port_open] and its callers *)




(** The same wait in numbers: the port opens a quarter of a second in, the
    fourth poll connects at 300 ms. *)
Example wait_port_open_opens_late :
  wait_port_open 11 (opens_at 250) ("127.0.0.1", 10000) 1000 boot
  = Some (Returns tt,
          {| clock := 300;
             trace := [EvSocketNew;
                       EvConnectEx ("127.0.0.1", 10000) 0 111; EvSleep 100;
                       EvConnectEx ("127.0.0.1", 10000) 100 111; EvSleep 100;
                       EvConnectEx ("127.0.0.1", 10000) 200 111; EvSleep 100;
                       EvConnectEx ("127.0.0.1", 10000) 300 0;
                       EvSocketClose] |}).
Proof. reflexivity. Qed.

(** A port that never opens: eleven polls would be needed to pass a one
    second deadline, ten are made, and the wait raises at the deadline. *)
Example wait_port_open_never_opens :
  ((fun r => (fst r, clock (snd r), length (connect_codes (trace (snd r)))))
     <$> wait_port_open 11 (opens_at 5000) ("127.0.0.1", 10000) 1000 boot)
  = Some (Raises (NeverOpened "127.0.0.1" 10000), 1000, 10%nat).
Proof. reflexivity. Qed.

End TestServerFacts.

(** * Properties of sshutil/host.py *)

Module HostFacts.
Import host.

Example local_host_constructed :
  __init__ (sample_env true) None 22 None None None false None None []
  = (Returns local_host, [EvExecute (ShellCommand false) "pwd"]).
Proof. reflexivity. Qed.

Example remote_host_constructed :
  __init__ (sample_env true) (Some "example.org") 22 (Some "/home/user")
    None None false None None []
  = (Returns remote_host, []).
Proof. reflexivity. Qed.

(** An empty server name counts as no server. *)
Example empty_server_is_local :
  __init__ (sample_env true) (Some "") 22 None None None false None None []
  = (Returns local_host, [EvExecute (ShellCommand false) "pwd"]).
Proof. reflexivity. Qed.

(** *** Construction *)

Lemma init_attributes env server port cwd0 username password debug cache proxycmd tr self tr' :
  __init__ env server port cwd0 username password debug cache proxycmd tr = (Returns self, tr') ->
  sftp self = None /\ sftp_session self = None /\
  (truthy server = false -> session_class self = None /\ cmd_class self = ShellCommand debug) /\
  (truthy server = true -> is_Some (session_class self)).
Proof.
  unfold __init__. intros H.
  assert (Hcls : forall d,
    let classes :=
      match server with
      | Some s =>
          if truthy server
          then (SSHCommand {| ca_host := s; ca_port := port; ca_username := username;
                              ca_password := password; ca_debug := debug;
                              ca_cache := cache; ca_proxycmd := proxycmd |},
                Some (SSHClientSession {| ca_host := s; ca_port := port;
                              ca_username := username; ca_password := password;
                              ca_debug := debug; ca_cache := cache;
                              ca_proxycmd := proxycmd |}))
          else (ShellCommand debug, None)
      | None => (ShellCommand debug, None)
      end in
    self = {| sftp := None; sftp_session := None; cwd := d;
              cmd_class := fst classes; session_class := snd classes |} ->
    sftp self = None /\ sftp_session self = None /\
    (truthy server = false -> session_class self = None /\ cmd_class self = ShellCommand debug) /\
    (truthy server = true -> is_Some (session_class self))).
  { intros d classes ->. subst classes. simpl.
    destruct server as [s|]; [destruct (truthy (Some s)) eqn:Ht|]; simpl;
      repeat split; try congruence; eauto. }
  destruct cwd0 as [d|]; [destruct (truthy (Some d))|].
  - injection H as <- _. eapply Hcls. reflexivity.
  - destruct (Command_run _ _ _ _) as [[out|e] tr1]; [|discriminate].
    injection H as <- _. eapply Hcls. reflexivity.
  - destruct (Command_run _ _ _ _) as [[out|e] tr1]; [|discriminate].
    injection H as <- _. eapply Hcls. reflexivity.
Qed.

(** *** [copy_to] on a local host *)

(** C9.  A Host constructed with [server=None] has no session class, and
    its [copy_to] returns [None] at once: no call leaves the module (the
    trace is unchanged, so nothing is transferred), the Host is left as
    it was, and nothing is raised. *)
Theorem copy_to_local_is_noop env port cwd0 username password debug cache proxycmd tr0 self tr1 :
  __init__ env None port cwd0 username password debug cache proxycmd tr0 = (Returns self, tr1) ->
  session_class self = None /\
  forall localfile remotefile tr,
    copy_to env self localfile remotefile tr = (Returns tt, self, tr).
Proof.
  intros Hinit.
  destruct (init_attributes _ _ _ _ _ _ _ _ _ _ _ _ Hinit) as (_ & _ & Hlocal & _).
  destruct (Hlocal eq_refl) as [Hnone _].
  split; [exact Hnone|].
  intros localfile remotefile tr. unfold copy_to. rewrite Hnone. reflexivity.
Qed.

Lemma copy_to_local_is_noop_witness :
  __init__ (sample_env true) None 22 None None None false None None []
  = (Returns local_host, [EvExecute (ShellCommand false) "pwd"]) /\
  (session_class local_host = None /\
   forall localfile remotefile tr,
     copy_to (sample_env true) local_host localfile remotefile tr
     = (Returns tt, local_host, tr)).
Proof.
  split.
  - reflexivity.
  - apply (copy_to_local_is_noop (sample_env true) 22 None None None false None None []
             local_host [EvExecute (ShellCommand false) "pwd"]).
    reflexivity.
Defined.

(** *** [_get_sftp] *)

Lemma sessions_opened_app (a b : list Event) :
  sessions_opened (a ++ b) = sessions_opened a ++ sessions_opened b.
Proof. unfold sessions_opened. apply omap_app. Qed.

(** With a client stored, [_get_sftp] hands it back and touches nothing. *)
Lemma get_sftp_stored env self tr c :
  sftp self = Some c -> _get_sftp env self tr = (Returns c, self, tr).
Proof. intros H. unfold _get_sftp. rewrite H. reflexivity. Qed.

Lemma get_sftp_times_stored env self c n :
  sftp self = Some c ->
  forall tr, get_sftp_times n env self tr = (replicate n (Returns c), self, tr).
Proof.
  intros H. induction n as [|n IH]; intros tr; simpl; [reflexivity|].
  rewrite (get_sftp_stored env self tr c H), IH. reflexivity.
Qed.

(** A call made with no client stored, which leaves one stored. *)
Lemma get_sftp_first env self tr r self1 tr1 c :
  sftp self = None ->
  _get_sftp env self tr = (r, self1, tr1) ->
  sftp self1 = Some c ->
  sessions_opened tr1 = sessions_opened tr ++ [{| chan := sock c |}] /\
  sftp_session self1 = Some {| chan := sock c |} /\
  session_class self1 = session_class self /\
  is_Some (session_class self) /\
  (forall c', r = Returns c' -> c' = c).
Proof.
  intros Hnone Hcall Hstored. unfold _get_sftp in Hcall. rewrite Hnone in Hcall.
  destruct (session_class self) as [cls|] eqn:Hcls.
  2: { injection Hcall as _ <- _. congruence. }
  destruct (open_session env tr cls "sftp") as [s|e].
  2: { injection Hcall as _ <- _. congruence. }
  destruct (sftp_client_raises env (tr ++ [EvSession cls "sftp" s]) (chan s)) as [e|].
  { simpl in Hcall. injection Hcall as _ <- _. simpl in Hstored. congruence. }
  simpl in Hcall.
  destruct (chdir_raises env _ (chan s) (cwd self)) as [e|];
    injection Hcall as <- <- <-; simpl in Hstored; injection Hstored as <-; simpl.
  - rewrite !sessions_opened_app. simpl. rewrite app_nil_r.
    destruct s; repeat split; eauto; discriminate.
  - rewrite !sessions_opened_app. simpl. rewrite !app_nil_r.
    destruct s; repeat split; eauto. intros c' [= <-]. reflexivity.
Qed.

(** C10 (as stated, refuted).  On a remote host whose server offers no
    SFTP subsystem the construction of the client fails inside the
    [try]; the first call of [_get_sftp] has opened a session, stores no
    client and raises [AttributeError], and the second call opens a
    second session. *)
Lemma get_sftp_counterexample :
  get_sftp_times 2 (sample_env false) remote_host []
  = ([Raises (AttributeError "'NoneType' object has no attribute 'chdir'");
      Raises (AttributeError "'NoneType' object has no attribute 'chdir'")],
     {| sftp := None; sftp_session := Some {| chan := 7 |}; cwd := "/home/user";
        cmd_class := SSHCommand example_kw;
        session_class := Some (SSHClientSession example_kw) |},
     [EvSession (SSHClientSession example_kw) "sftp" {| chan := 7 |};
      EvSession (SSHClientSession example_kw) "sftp" {| chan := 7 |}]).
Proof. reflexivity. Qed.

(** C10 (amended).  A call of [_get_sftp] on a Host without a client that
    leaves a client stored has opened exactly one session, the one the
    client is built on, and a client it returns is the stored one.  From
    then on every call returns that client and changes neither the Host
    nor the trace, and a [copy_to] keeps the Host and opens no session. *)
Theorem get_sftp_cached env self tr r self1 tr1 c :
  sftp self = None ->
  _get_sftp env self tr = (r, self1, tr1) ->
  sftp self1 = Some c ->
  sessions_opened tr1 = sessions_opened tr ++ [{| chan := sock c |}] /\
  (forall c', r = Returns c' -> c' = c) /\
  (forall n tr2, get_sftp_times n env self1 tr2 = (replicate n (Returns c), self1, tr2)) /\
  (forall localfile remotefile tr2, exists res tr3,
      copy_to env self1 localfile remotefile tr2 = (res, self1, tr3) /\
      sessions_opened tr3 = sessions_opened tr2).
Proof.
  intros Hnone Hcall Hstored.
  destruct (get_sftp_first env self tr r self1 tr1 c Hnone Hcall Hstored)
    as (Hopened & _ & Hsame & [cls Hcls] & Hret).
  split; [exact Hopened|]. split; [exact Hret|]. split.
  - intros n tr2. apply get_sftp_times_stored. exact Hstored.
  - intros localfile remotefile tr2. unfold copy_to.
    rewrite Hsame, Hcls, (get_sftp_stored env self1 tr2 c Hstored).
    destruct (put_raises env tr2 (sock c) localfile remotefile) as [e|].
    + exists (Raises e), tr2. split; reflexivity.
    + exists (Returns tt), (tr2 ++ [EvPut (sock c) localfile remotefile]).
      split; [reflexivity|]. rewrite sessions_opened_app. simpl. apply app_nil_r.
Qed.

Lemma get_sftp_cached_witness :
  sftp remote_host = None /\
  _get_sftp (sample_env true) remote_host []
  = (Returns {| sock := 7 |}, remote_host_with_sftp,
     [EvSession (SSHClientSession example_kw) "sftp" {| chan := 7 |};
      EvSFTPClient 7; EvChdir 7 "/home/user"]) /\
  sftp remote_host_with_sftp = Some {| sock := 7 |} /\
  (sessions_opened [EvSession (SSHClientSession example_kw) "sftp" {| chan := 7 |};
                    EvSFTPClient 7; EvChdir 7 "/home/user"]
   = sessions_opened [] ++ [{| chan := sock {| sock := 7 |} |}] /\
   (forall c', Returns {| sock := 7 |} = Returns c' -> c' = {| sock := 7 |}) /\
   (forall n tr2,
       get_sftp_times n (sample_env true) remote_host_with_sftp tr2
       = (replicate n (Returns {| sock := 7 |}), remote_host_with_sftp, tr2)) /\
   (forall localfile remotefile tr2, exists res tr3,
       copy_to (sample_env true) remote_host_with_sftp localfile remotefile tr2
       = (res, remote_host_with_sftp, tr3) /\
       sessions_opened tr3 = sessions_opened tr2)).
Proof.
  split; [reflexivity|]. split; [reflexivity|]. split; [reflexivity|].
  apply (get_sftp_cached (sample_env true) remote_host []
           (Returns {| sock := 7 |}) remote_host_with_sftp
           [EvSession (SSHClientSession example_kw) "sftp" {| chan := 7 |};
            EvSFTPClient 7; EvChdir 7 "/home/user"]
           {| sock := 7 |}); reflexivity.
Defined.

(** *** Running commands *)

(** C7.  A command that ran and left a non-zero exit code is a result:
    [run_status_stderr] returns the exit code with the captured stdout
    and stderr and does not raise, while [run] raises
    [CalledProcessError] carrying the same exit code and output.  A
    command that could not be run is told apart from that: whatever
    running it raised reaches the caller of either method, and no
    execution is recorded. *)
Theorem nonzero_exit_is_a_result env self command tr status out err :
  execute env tr (cmd_class self) (_get_cmd env self command) = Returns (status, out, err) ->
  status <> 0 ->
  run_status_stderr env self command tr
  = (Returns (status, out, err),
     tr ++ [EvExecute (cmd_class self) (_get_cmd env self command)]) /\
  run env self command tr
  = (Raises (CalledProcessError status (_get_cmd env self command) out err),
     tr ++ [EvExecute (cmd_class self) (_get_cmd env self command)]) /\
  (forall tr' e,
      execute env tr' (cmd_class self) (_get_cmd env self command) = Raises e ->
      run_status_stderr env self command tr' = (Raises e, tr') /\
      run env self command tr' = (Raises e, tr')).
Proof.
  intros Hran Hstatus.
  unfold run_status_stderr, run, Command_run, Command_run_status_stderr.
  split; [|split].
  - rewrite Hran. reflexivity.
  - rewrite Hran. destruct (Z.eqb_spec status 0); [contradiction|reflexivity].
  - intros tr' e Hfail. rewrite Hfail. split; reflexivity.
Qed.

Lemma nonzero_exit_is_a_result_witness :
  execute (sample_env true) [] (cmd_class local_host)
    (_get_cmd (sample_env true) local_host "grep foobar doesnt-exist")
  = Returns (2, "", grep_stderr) /\
  2 <> 0 /\
  (run_status_stderr (sample_env true) local_host "grep foobar doesnt-exist" []
   = (Returns (2, "", grep_stderr),
      [] ++ [EvExecute (cmd_class local_host)
               (_get_cmd (sample_env true) local_host "grep foobar doesnt-exist")]) /\
   run (sample_env true) local_host "grep foobar doesnt-exist" []
   = (Raises (CalledProcessError 2
                (_get_cmd (sample_env true) local_host "grep foobar doesnt-exist")
                "" grep_stderr),
      [] ++ [EvExecute (cmd_class local_host)
               (_get_cmd (sample_env true) local_host "grep foobar doesnt-exist")]) /\
   (forall tr' e,
       execute (sample_env true) tr' (cmd_class local_host)
         (_get_cmd (sample_env true) local_host "grep foobar doesnt-exist") = Raises e ->
       run_status_stderr (sample_env true) local_host "grep foobar doesnt-exist" tr'
       = (Raises e, tr') /\
       run (sample_env true) local_host "grep foobar doesnt-exist" tr' = (Raises e, tr'))).
Proof.
  split; [reflexivity|]. split; [discriminate|].
  apply (nonzero_exit_is_a_result (sample_env true) local_host
           "grep foobar doesnt-exist" [] 2 "" grep_stderr).
  - reflexivity.
  - discriminate.
Defined.

(** The command line a Host builds, quoting included. *)
Example get_cmd_quotes :
  _get_cmd (sample_env true) local_host "echo 'a'"
  = String.app "bash -c 'cd /home/user && echo '"
      (String (Ascii.ascii_of_nat 34) (String.app "'"
         (String (Ascii.ascii_of_nat 34) (String.app "'a'"
            (String (Ascii.ascii_of_nat 34) (String.app "'"
               (String (Ascii.ascii_of_nat 34) "''"))))))).
Proof. reflexivity. Qed.

End HostFacts.

(** * Properties of the Connection Cache *)

Module CacheFacts.
Import cache.

Section Invariants.
Variable connects : ConnectionKey -> bool.

Lemma wf_empty : wf empty.
Proof.
  unfold wf, empty; simpl.
  repeat split; intros *; first [set_solver | rewrite lookup_empty; discriminate].
Qed.

Lemma wf_create k st r st' :
  wf st -> create connects k st = (r, st') -> wf st'.
Proof.
  intros (Hopen & Hclosed & Hdisj & Htable). unfold create.
  destruct (connects k); intros [= <- <-]; [|repeat split; assumption].
  repeat split; simpl.
  - intros h [->%elem_of_singleton|Hh%Hopen]%elem_of_union; lia.
  - intros h Hh%Hclosed. lia.
  - intros h [->%elem_of_singleton|Hh]%elem_of_union.
    + intros Hc%Hclosed. lia.
    + apply Hdisj, Hh.
  - intros k' h. destruct (decide (k = k')) as [->|Hne].
    + rewrite lookup_insert_eq. intros [= <-]. lia.
    + rewrite lookup_insert_ne by exact Hne. intros Hh%Htable. lia.
Qed.

Lemma wf_acquire k st r st' :
  wf st -> acquire connects k st = (r, st') -> wf st'.
Proof.
  intros Hwf. unfold acquire.
  destruct (table st !! k) as [h|]; [destruct (decide (h ∈ open_handles st))|].
  - intros [= <- <-]. exact Hwf.
  - apply wf_create, Hwf.
  - apply wf_create, Hwf.
Qed.

Lemma wf_flush st st' : wf st -> flush st = Some st' -> wf st'.
Proof.
  intros (Hopen & Hclosed & Hdisj & Htable). unfold flush.
  destruct (decide _); intros [= <-]. repeat split; simpl.
  - intros h [Hh _]%elem_of_difference. apply Hopen, Hh.
  - intros h [Hh|Hh]%elem_of_union; [apply Hclosed, Hh|].
    apply elem_of_map_img in Hh as [k Hk]. eapply Htable, Hk.
  - intros h [Hh Hnc]%elem_of_difference [Hc|Hc]%elem_of_union.
    + exact (Hdisj h Hh Hc).
    + exact (Hnc Hc).
  - intros k h. rewrite lookup_empty. discriminate.
Qed.

Lemma wf_link_down h st : wf st -> wf (link_down h st).
Proof.
  intros (Hopen & Hclosed & Hdisj & Htable). unfold link_down.
  destruct (decide _) as [Hin|]; [|repeat split; assumption].
  repeat split; simpl.
  - intros x [Hx _]%elem_of_difference. apply Hopen, Hx.
  - intros x [Hx| ->%elem_of_singleton]%elem_of_union; [apply Hclosed, Hx|apply Hopen, Hin].
  - intros x [Hx Hne]%elem_of_difference [Hc|Hc]%elem_of_union.
    + exact (Hdisj x Hx Hc).
    + exact (Hne Hc).
  - exact Htable.
Qed.

Lemma wf_step op st st' : wf st -> step connects op st = Some st' -> wf st'.
Proof.
  intros Hwf. destruct op as [k|h|h| |h]; simpl.
  - intros [= <-]. destruct (acquire connects k st) as [r st1] eqn:Hacq.
    eapply wf_acquire; eassumption.
  - intros [= <-]. unfold session_open. destruct (decide _); exact Hwf.
  - intros [= <-]. exact Hwf.
  - apply wf_flush, Hwf.
  - intros [= <-]. apply wf_link_down, Hwf.
Qed.

Lemma wf_run ops : forall st st', wf st -> run connects ops st = Some st' -> wf st'.
Proof.
  induction ops as [|op ops IH]; intros st st' Hwf; simpl.
  - intros [= <-]. exact Hwf.
  - destruct (step connects op st) as [st1|] eqn:Hstep; [|discriminate].
    apply IH. eapply wf_step; eassumption.
Qed.

Lemma reachable_wf st : reachable connects st -> wf st.
Proof. intros [ops Hrun]. eapply wf_run; [apply wf_empty|exact Hrun]. Qed.

(** *** Transports cached after a given count *)

Lemma since_create n0 k st r st' :
  cached_since n0 st -> create connects k st = (r, st') -> cached_since n0 st'.
Proof.
  intros [Hnext Htable]. unfold create.
  destruct (connects k); intros [= <- <-]; [|split; assumption].
  split; simpl; [lia|].
  intros k' h. destruct (decide (k = k')) as [->|Hne].
  - rewrite lookup_insert_eq. intros [= <-]. exact Hnext.
  - rewrite lookup_insert_ne by exact Hne. apply Htable.
Qed.

Lemma since_step n0 op st st' :
  cached_since n0 st -> step connects op st = Some st' -> cached_since n0 st'.
Proof.
  intros Hs. destruct op as [k|h|h| |h]; simpl.
  - intros [= <-]. unfold acquire.
    destruct (table st !! k) as [h|]; [destruct (decide (h ∈ open_handles st))|].
    + exact Hs.
    + destruct (create connects k st) as [r st1] eqn:Hc. eapply since_create; eassumption.
    + destruct (create connects k st) as [r st1] eqn:Hc. eapply since_create; eassumption.
  - intros [= <-]. unfold session_open. destruct (decide _); exact Hs.
  - intros [= <-]. exact Hs.
  - unfold flush. destruct (decide _); intros [= <-]. destruct Hs as [Hnext _].
    split; simpl; [exact Hnext|]. intros k h. rewrite lookup_empty. discriminate.
  - intros [= <-]. unfold link_down. destruct (decide _); exact Hs.
Qed.

Lemma since_run n0 ops :
  forall st st', cached_since n0 st -> run connects ops st = Some st' -> cached_since n0 st'.
Proof.
  induction ops as [|op ops IH]; intros st st' Hs; simpl.
  - intros [= <-]. exact Hs.
  - destruct (step connects op st) as [st1|] eqn:Hstep; [|discriminate].
    apply IH. eapply since_step; eassumption.
Qed.

(** A flush leaves nothing cached and does not move the counter. *)
Lemma flush_clears st st' :
  flush st = Some st' ->
  table st' = ∅ /\ next_handle st' = next_handle st /\
  closed_handles st' = closed_handles st ∪ cached st /\
  cached_since (next_handle st) st'.
Proof.
  unfold flush. destruct (decide _); intros [= <-]. simpl.
  repeat split; try reflexivity. simpl. intros k h. rewrite lookup_empty. discriminate.
Qed.

(** What [acquire] hands out is open, not closed, and as young as the
    cache contents. *)
Lemma acquire_open n0 k st h st' :
  wf st -> cached_since n0 st ->
  acquire connects k st = (Returns h, st') ->
  (n0 <= h)%nat /\ h ∈ open_handles st' /\ h ∉ closed_handles st'.
Proof.
  intros (Hopen & Hclosed & Hdisj & Htable) [Hnext Hsince]. unfold acquire.
  assert (Hcreate : create connects k st = (Returns h, st') ->
          (n0 <= h)%nat /\ h ∈ open_handles st' /\ h ∉ closed_handles st').
  { unfold create. destruct (connects k); intros [= <- <-]; simpl.
    repeat split; [exact Hnext|set_solver|]. intros Hc%Hclosed. lia. }
  destruct (table st !! k) as [h0|] eqn:Hk;
    [destruct (decide (h0 ∈ open_handles st)) as [Hin|]|]; try exact Hcreate.
  intros [= <- <-]. repeat split; [eapply Hsince, Hk|exact Hin|apply Hdisj, Hin].
Qed.
End Invariants.

(** C2.  Once [flush()] has returned on a cache in any reachable state, the
    cache holds no Transport; and whatever is done to the cache afterwards,
    an [acquire] that returns a Transport returns one the provider opened
    after the flush: its handle identity is none of those handed out
    before, it is not among the Transports the flush (or anything earlier)
    closed, and it is open and not closed when it is returned.  The first
    [acquire] after the flush makes the provider open a connection and
    returns that one, under the next handle identity. *)
Theorem flush_then_acquire_is_fresh connects st0 st1 ops st2 k h st3 :
  reachable connects st0 ->
  flush st0 = Some st1 ->
  run connects ops st1 = Some st2 ->
  acquire connects k st2 = (Returns h, st3) ->
  table st1 = ∅ /\ cached st1 = ∅ /\
  (next_handle st0 <= h)%nat /\
  (h ∉ open_handles st0) /\ (h ∉ closed_handles st1) /\
  (h ∈ open_handles st3) /\ (h ∉ closed_handles st3) /\
  (ops = [] -> h = next_handle st0 /\ next_handle st3 = S (next_handle st0)).
Proof.
  intros Hreach Hflush Hrun Hacq.
  pose proof (reachable_wf connects st0 Hreach) as Hwf0.
  pose proof (wf_flush st0 st1 Hwf0 Hflush) as Hwf1.
  destruct (flush_clears st0 st1 Hflush) as (Hempty & Hnext & _ & Hsince1).
  pose proof (wf_run connects ops st1 st2 Hwf1 Hrun) as Hwf2.
  pose proof (since_run connects _ ops st1 st2 Hsince1 Hrun) as Hsince2.
  destruct (acquire_open connects _ k st2 h st3 Hwf2 Hsince2 Hacq) as (Hyoung & Hin & Hnot).
  destruct Hwf0 as (Hopen0 & _). destruct Hwf1 as (_ & Hclosed1 & _).
  split; [exact Hempty|]. split; [unfold cached; rewrite Hempty; apply map_img_empty_L|].
  split; [exact Hyoung|]. split; [intros Hh%Hopen0; lia|].
  split; [intros Hh%Hclosed1; lia|]. split; [exact Hin|]. split; [exact Hnot|].
  intros ->. injection Hrun as <-. revert Hacq. unfold acquire, create.
  rewrite Hempty, lookup_empty, Hnext.
  destruct (connects k); intros [= <- <-]. split; reflexivity.
Qed.

Lemma flush_then_acquire_is_fresh_witness :
  reachable anyone after_churn /\
  flush after_churn = Some after_flush /\
  run anyone [] after_flush = Some after_flush /\
  acquire anyone test_key after_flush
  = (Returns 1%nat, snd (acquire anyone test_key after_flush)) /\
  (table after_flush = ∅ /\ cached after_flush = ∅ /\
   (next_handle after_churn <= 1)%nat /\
   (1%nat ∉ open_handles after_churn) /\ (1%nat ∉ closed_handles after_flush) /\
   (1%nat ∈ open_handles (snd (acquire anyone test_key after_flush))) /\
   (1%nat ∉ closed_handles (snd (acquire anyone test_key after_flush))) /\
   (@nil Op = [] ->
    1%nat = next_handle after_churn /\
    next_handle (snd (acquire anyone test_key after_flush)) = S (next_handle after_churn))).
Proof.
  split; [exists churn; apply (bool_decide_unpack _); vm_compute; exact I|].
  split; [apply (bool_decide_unpack _); vm_compute; exact I|].
  split; [reflexivity|].
  split; [apply (bool_decide_unpack _); vm_compute; exact I|].
  apply (flush_then_acquire_is_fresh anyone after_churn after_flush [] after_flush
           test_key 1%nat (snd (acquire anyone test_key after_flush))).
  - exists churn. apply (bool_decide_unpack _). vm_compute. exact I.
  - apply (bool_decide_unpack _). vm_compute. exact I.
  - reflexivity.
  - apply (bool_decide_unpack _). vm_compute. exact I.
Defined.

(** The scenario in numbers: the Transport shared by the 25 Sessions has
    handle 0; while a Session is open the flush does not return; after
    the flush handle 0 is closed and the same key gets handle 1. *)
Example multi_open_scenario :
  fst (acquire anyone test_key empty) = Returns 0%nat /\
  fst (acquire anyone test_key after_churn) = Returns 0%nat /\
  (flush <$> run anyone (OpAcquire test_key :: [OpSessionOpen 0]) empty) = Some None /\
  elements (closed_handles after_flush) = [0%nat] /\
  fst (acquire anyone test_key after_flush) = Returns 1%nat.
Proof. repeat split; vm_compute; reflexivity. Qed.

End CacheFacts.

(** * Further properties of tests/test_server.py *)

Module TestServerExtras.
Import TestServer.

(** *** The port search *)

(** The search touches the world only by recording the server it got. *)
Lemma find_port_world py env w ports :
  forall error r w',
    find_port py env ports error w = (r, w') ->
    match r with
    | Returns found => w' = log (EvServerNew (fst found)) w
    | Raises _ => w' = w
    end.
Proof.
  induction ports as [|p ports IH]; intros error r w'; simpl.
  - destruct error; intros [= <- <-]; reflexivity.
  - destruct (SSHServer env (trace w) (Some p)) as [ns|e].
    + intros [= <- <-]. reflexivity.
    + destruct e; try (intros [= <- <-]; reflexivity).
      destruct (errno =? EADDRINUSE); [apply IH|intros [= <- <-]; reflexivity].
Qed.

(** X1.  A port the search returns is one of the candidates; every
    candidate before it was in use, it is the port the returned server
    was constructed on, and that construction is the one call recorded. *)
Theorem find_port_sound py env w ports error p ns w' :
  find_port py env ports error w = (Returns (p, ns), w') ->
  exists taken rest,
    ports = taken ++ p :: rest /\
    Forall (busy env w) taken /\
    SSHServer env (trace w) (Some p) = Returns ns /\
    w' = log (EvServerNew p) w.
Proof.
  revert error. induction ports as [|q ports IH]; intros error; simpl.
  - destruct error; discriminate.
  - destruct (SSHServer env (trace w) (Some q)) as [ns'|e] eqn:Hq.
    + intros [= <- <- <-]. exists [], ports. repeat split; [constructor|exact Hq].
    + destruct e; try discriminate.
      destruct (Z.eqb_spec errno EADDRINUSE) as [->|]; [|discriminate].
      intros Hrest. destruct (IH _ Hrest) as (taken & rest & -> & Htaken & Hp & ->).
      exists (q :: taken), rest. repeat split; [constructor; assumption|exact Hp].
Qed.

Lemma find_port_sound_witness :
  find_port Py3 (busy_below 10002) (py_range test_port_can_start 100) None boot
  = (Returns (10002, {| port := 10002 |}), log (EvServerNew 10002) boot) /\
  exists taken rest,
    py_range test_port_can_start 100 = taken ++ 10002 :: rest /\
    Forall (busy (busy_below 10002) boot) taken /\
    SSHServer (busy_below 10002) (trace boot) (Some 10002) = Returns {| port := 10002 |} /\
    log (EvServerNew 10002) boot = log (EvServerNew 10002) boot.
Proof.
  split; [reflexivity|].
  apply (find_port_sound Py3 (busy_below 10002) boot (py_range test_port_can_start 100)
           None 10002 {| port := 10002 |} (log (EvServerNew 10002) boot)).
  reflexivity.
Defined.

Lemma find_port_first_free_witness :
  Forall (busy (busy_below 10002) boot) [10000; 10001] /\
  SSHServer (busy_below 10002) (trace boot) (Some 10002) = Returns {| port := 10002 |} /\
  find_port Py3 (busy_below 10002) ([10000; 10001] ++ 10002 :: [10003]) None boot
  = (Returns (10002, {| port := 10002 |}), log (EvServerNew 10002) boot).
Proof.
  split; [repeat constructor|]. split; [reflexivity|].
  apply (TestServerFacts.find_port_first_free (busy_below 10002) boot Py3
           [10000; 10001] 10002 {| port := 10002 |} [10003] None).
  - repeat constructor.
  - reflexivity.
Defined.

Lemma find_port_fatal_witness :
  Forall (busy denied boot) [] /\
  SSHServer denied (trace boot) (Some 10000) = Raises (SocketError 13) /\
  SocketError 13 <> SocketError EADDRINUSE /\
  find_port Py3 denied ([] ++ 10000 :: [10001]) None boot = (Raises (SocketError 13), boot).
Proof.
  split; [constructor|]. split; [reflexivity|]. split; [discriminate|].
  apply (TestServerFacts.find_port_fatal denied boot Py3 [] 10000 (SocketError 13)
           [10001] None).
  - constructor.
  - reflexivity.
  - discriminate.
Defined.

Lemma find_port_exhausted_py2_witness :
  py_range test_port_can_start 100 <> [] /\
  Forall (busy all_busy boot) (py_range test_port_can_start 100) /\
  find_port Py2 all_busy (py_range test_port_can_start 100) None boot
  = (Raises (SocketError EADDRINUSE), boot).
Proof.
  split; [discriminate|]. split; [apply Forall_forall; intros p _; reflexivity|].
  apply (TestServerFacts.find_port_exhausted_py2 all_busy boot
           (py_range test_port_can_start 100) None).
  - discriminate.
  - apply Forall_forall. intros p _. reflexivity.
Defined.

(** *** [_test_server_close] as a whole *)

(** X5.  [_test_server_close] cannot run to its end, whatever the
    interpreter and the environment: either the port search raises with
    nothing recorded, or a server is bound and the first
    [wait_port_open] call raises [TypeError].  No session is ever opened
    and no connect is ever tried. *)
Theorem test_server_close_always_raises py fuel env w :
  exists e w',
    _test_server_close py fuel env w = Some (Raises e, w') /\
    (w' = w \/
     exists p, w' = log (EvServerNew p) w /\
       e = TypeError "wait_port_open() missing 1 required positional argument: 'timeout'") /\
    sessions_started (trace w') = sessions_started (trace w) /\
    connect_codes (trace w') = connect_codes (trace w).
Proof.
  unfold _test_server_close, bind.
  destruct (find_port py env (py_range test_port_can_start 100) None w) as [r w1] eqn:Hfind.
  pose proof (find_port_world _ _ _ _ _ _ _ Hfind) as Hw.
  destruct r as [found|e]; subst w1.
  - exists (TypeError "wait_port_open() missing 1 required positional argument: 'timeout'"),
      (log (EvServerNew (fst found)) w).
    split; [reflexivity|]. split; [right; eauto|].
    unfold sessions_started, connect_codes, log; simpl.
    rewrite !omap_app; simpl. rewrite !app_nil_r. split; reflexivity.
  - exists e, w. split; [reflexivity|]. split; [left; reflexivity|]. split; reflexivity.
Qed.

(** *** [wait_port_open] once the port is open *)

Lemma poll_opens env addr expire t (fuel : nat) :
  (forall now, sleep_overrun env now = 0%nat) ->
  (forall t', t <= t' -> connect_ex env t' addr = 0) ->
  t + 100 <= expire ->
  forall w, (S (rounds (expire - clock w)) <= fuel)%nat ->
  clock w < t + 100 ->
  exists w', poll fuel env addr expire w = Some (Returns tt, w') /\ clock w' < t + 100.
Proof.
  intros Hexact Hopen Hroom.
  induction fuel as [|fuel IH]; intros w Hfuel Hnow; [lia|].
  simpl. destruct (Z.ltb_spec (clock w) expire) as [Hlt|Hge]; [|lia].
  destruct (Z.eqb_spec (connect_ex env (clock w) addr) 0) as [Hrc|Hrc].
  - eexists. split; [reflexivity|]. exact Hnow.
  - assert (Hbefore : clock w < t).
    { destruct (Z.lt_ge_cases (clock w) t) as [H|H]; [exact H|].
      exfalso. apply Hrc, Hopen, H. }
    apply IH.
    + unfold sleep_tenth, log; simpl. rewrite Hexact.
      pose proof (TestServerFacts.rounds_step (expire - clock w) 100).
      replace (expire - (clock w + (100 + Z.of_nat 0))) with (expire - clock w - 100) by lia.
      lia.
    + unfold sleep_tenth, log; simpl. rewrite Hexact. lia.
Qed.

(** X6.  If sleeps last exactly a tenth of a second, and the port opens at
    a time [t] not before the call, at least a tenth of a second before
    the deadline, and stays open, then [wait_port_open] returns, and does
    so less than a tenth of a second after [t]. *)
Theorem wait_port_open_returns_once_open env addr timeout t (fuel : nat) w :
  (enough_fuel timeout <= fuel)%nat ->
  (forall now, sleep_overrun env now = 0%nat) ->
  (forall t', t <= t' -> connect_ex env t' addr = 0) ->
  clock w <= t ->
  t + 100 <= clock w + timeout ->
  exists w',
    wait_port_open fuel env addr timeout w = Some (Returns tt, w') /\
    clock w' < t + 100.
Proof.
  intros Hfuel Hexact Hopen Hstart Hroom. unfold wait_port_open.
  destruct (poll_opens env addr (clock w + timeout) t fuel Hexact Hopen Hroom
              (log EvSocketNew w)) as (w' & Hrun & Hclk).
  - simpl. replace (clock w + timeout - clock w) with timeout by lia. exact Hfuel.
  - simpl. lia.
  - rewrite Hrun. eexists. split; [reflexivity|]. exact Hclk.
Qed.

Lemma wait_port_open_returns_once_open_witness :
  (enough_fuel 1000 <= 11)%nat /\
  (forall now, sleep_overrun (opens_at 250) now = 0%nat) /\
  (forall t', 250 <= t' -> connect_ex (opens_at 250) t' ("127.0.0.1", 10000) = 0) /\
  clock boot <= 250 /\
  250 + 100 <= clock boot + 1000 /\
  exists w',
    wait_port_open 11 (opens_at 250) ("127.0.0.1", 10000) 1000 boot = Some (Returns tt, w') /\
    clock w' < 250 + 100.
Proof.
  assert (H1 : (enough_fuel 1000 <= 11)%nat) by (vm_compute; lia).
  assert (H2 : forall now, sleep_overrun (opens_at 250) now = 0%nat) by reflexivity.
  assert (H3 : forall t', 250 <= t' ->
                 connect_ex (opens_at 250) t' ("127.0.0.1", 10000) = 0).
  { intros t' Ht. simpl. destruct (Z.ltb_spec t' 250); [lia|reflexivity]. }
  assert (H4 : clock boot <= 250) by (simpl; lia).
  assert (H5 : 250 + 100 <= clock boot + 1000) by (simpl; lia).
  split; [exact H1|]. split; [exact H2|]. split; [exact H3|].
  split; [exact H4|]. split; [exact H5|].
  exact (wait_port_open_returns_once_open (opens_at 250) ("127.0.0.1", 10000) 1000 250 11
           boot H1 H2 H3 H4 H5).
Defined.

(** X7.  A timeout of zero or less leaves no time for a single attempt:
    the socket is opened and closed, no connect is tried, the clock does
    not move, and the wait raises. *)
Theorem wait_port_open_no_time env addr timeout (fuel : nat) w :
  timeout <= 0 ->
  wait_port_open (S fuel) env addr timeout w
  = Some (Raises (NeverOpened (fst addr) (snd addr)),
          extend w [EvSocketNew; EvSocketClose]).
Proof.
  intros Ht. unfold wait_port_open. simpl.
  destruct (Z.ltb_spec (clock w) (clock w + timeout)) as [H|H]; [lia|].
  unfold extend, log. simpl. rewrite <- app_assoc. reflexivity.
Qed.

Lemma wait_port_open_no_time_witness :
  0 <= 0 /\
  wait_port_open 1 calm ("127.0.0.1", 10000) 0 boot
  = Some (Raises (NeverOpened (fst ("127.0.0.1", 10000)) (snd ("127.0.0.1", 10000))),
          extend boot [EvSocketNew; EvSocketClose]).
Proof.
  split; [lia|].
  apply (wait_port_open_no_time calm ("127.0.0.1", 10000) 0 0 boot). lia.
Defined.

(** *** Sessions opened and closed by the tests *)

Lemma extend_nil w : extend w [] = w.
Proof. destruct w. unfold extend. simpl. rewrite app_nil_r. reflexivity. Qed.

Lemma extend_extend w a b : extend (extend w a) b = extend w (a ++ b).
Proof. unfold extend. simpl. rewrite app_assoc. reflexivity. Qed.

Lemma ext_quiet env ev w : quiet env -> ext env ev w = Some (Returns tt, extend w [ev]).
Proof. intros Hq. unfold ext. rewrite Hq. reflexivity. Qed.

Lemma open_sessions_quiet env p c (n : nat) :
  quiet env ->
  forall w, open_sessions n env p c w = Some (Returns tt, extend w (replicate n (EvSSHSession p c))).
Proof.
  intros Hq. induction n as [|n IH]; intros w; simpl.
  - unfold ret. rewrite extend_nil. reflexivity.
  - unfold bind. rewrite (ext_quiet _ _ _ Hq), IH, extend_extend. reflexivity.
Qed.

Lemma close_sessions_quiet env (n : nat) :
  quiet env ->
  forall w, close_sessions n env w = Some (Returns tt, extend w (replicate n EvSessionClose)).
Proof.
  intros Hq. induction n as [|n IH]; intros w; simpl.
  - unfold ret. rewrite extend_nil. reflexivity.
  - unfold bind. rewrite (ext_quiet _ _ _ Hq), IH, extend_extend. reflexivity.
Qed.

(** X8.  When nothing raises, [_test_multi_open] runs to its end having
    started one server and opened 76 sessions but closed 75: the session
    opened on its own after the first batch is never closed.  Only the
    first 25 sessions are opened with the cache under test, the other 51
    with the default one, and the last two calls shut the server down. *)
Theorem test_multi_open_accounts env w ns :
  quiet env ->
  SSHServer env (trace w) None = Returns ns ->
  exists new,
    _test_multi_open env w = Some (Returns tt, extend w new) /\
    servers_started new = [port ns] /\
    sessions_started new = replicate 25 TestCache ++ replicate 51 DefaultCache /\
    sessions_closed new = 75%nat /\
    connect_codes new = [] /\
    drop (length new - 2) new = [EvServerClose; EvServerJoin].
Proof.
  intros Hq Hns. unfold _test_multi_open, bind at 1. rewrite Hns.
  change (log (EvServerNew (port ns)) w) with (extend w [EvServerNew (port ns)]).
  repeat (unfold bind at 1;
          first [ rewrite (open_sessions_quiet _ _ _ _ Hq)
                | rewrite (close_sessions_quiet _ _ Hq)
                | rewrite (ext_quiet _ _ _ Hq) ];
          rewrite extend_extend).
  rewrite (ext_quiet _ _ _ Hq), extend_extend.
  eexists. split; [reflexivity|].
  repeat split; vm_compute; reflexivity.
Qed.

Lemma test_multi_open_accounts_witness :
  quiet calm /\
  SSHServer calm (trace boot) None = Returns {| port := 2222 |} /\
  exists new,
    _test_multi_open calm boot = Some (Returns tt, extend boot new) /\
    servers_started new = [port {| port := 2222 |}] /\
    sessions_started new = replicate 25 TestCache ++ replicate 51 DefaultCache /\
    sessions_closed new = 75%nat /\
    connect_codes new = [] /\
    drop (length new - 2) new = [EvServerClose; EvServerJoin].
Proof.
  assert (Hq : quiet calm) by (intros tr ev; reflexivity).
  split; [exact Hq|]. split; [reflexivity|].
  exact (test_multi_open_accounts calm boot {| port := 2222 |} Hq eq_refl).
Defined.

(** X9.  [test_multi_session] needs the module's server: without one it
    raises [AttributeError] before any call is made.  With one, and
    nothing raising, it opens ten sessions to the server's port and
    closes none of them. *)
Theorem test_multi_session_leaves_sessions_open env g w :
  quiet env ->
  match ssh_server g with
  | None =>
      test_multi_session env g w
      = Some (Raises (AttributeError "'NoneType' object has no attribute 'port'"), w)
  | Some srv =>
      test_multi_session env g w
      = Some (Returns tt, extend w (replicate 10 (EvSSHSession (port srv) DefaultCache)))
  end.
Proof.
  intros Hq. unfold test_multi_session.
  destruct (ssh_server g) as [srv|] eqn:Hsrv.
  - assert (Hloop : forall (n : nat) w0,
      multi_session_loop n env g w0
      = Some (Returns tt, extend w0 (replicate n (EvSSHSession (port srv) DefaultCache)))).
    { induction n as [|n IH]; intros w0; simpl.
      - unfold ret. rewrite extend_nil. reflexivity.
      - unfold bind, server_port. rewrite Hsrv. unfold ret.
        rewrite (ext_quiet _ _ _ Hq), IH, extend_extend. reflexivity. }
    apply Hloop.
  - simpl. unfold bind, server_port. rewrite Hsrv. reflexivity.
Qed.

Lemma test_multi_session_leaves_sessions_open_witness :
  quiet calm /\
  match ssh_server {| ssh_server := Some {| port := 2222 |}; init := true |} with
  | None =>
      test_multi_session calm {| ssh_server := Some {| port := 2222 |}; init := true |} boot
      = Some (Raises (AttributeError "'NoneType' object has no attribute 'port'"), boot)
  | Some srv =>
      test_multi_session calm {| ssh_server := Some {| port := 2222 |}; init := true |} boot
      = Some (Returns tt, extend boot (replicate 10 (EvSSHSession (port srv) DefaultCache)))
  end.
Proof.
  assert (Hq : quiet calm) by (intros tr ev; reflexivity).
  split; [exact Hq|].
  exact (test_multi_session_leaves_sessions_open calm
           {| ssh_server := Some {| port := 2222 |}; init := true |} boot Hq).
Defined.

(** *** The module's server *)

Lemma setup_times_with_server env g (n : nat) :
  is_Some (ssh_server g) -> forall w, setup_times n env g w = (g, w).
Proof.
  intros [srv Hsrv]. induction n as [|n IH]; intros w; simpl; [reflexivity|].
  unfold setup_module. rewrite Hsrv. apply IH.
Qed.

(** X10.  [setup_module] sets the module up once: called any number of
    times, at least once, from a state without a server, it constructs
    exactly one server, the first time, and keeps it; the later calls
    change nothing. *)
Theorem setup_module_once env g w ns (n : nat) :
  ssh_server g = None ->
  SSHServer env (trace w) None = Returns ns ->
  setup_times (S n) env g w
  = ({| ssh_server := Some ns; init := true |}, extend w [EvServerNew (port ns)]).
Proof.
  intros Hnone Hns. simpl. unfold setup_module. rewrite Hnone, Hns.
  apply setup_times_with_server. simpl. eauto.
Qed.

Lemma setup_module_once_witness :
  ssh_server at_import = None /\
  SSHServer calm (trace boot) None = Returns {| port := 2222 |} /\
  setup_times 3 calm at_import boot
  = ({| ssh_server := Some {| port := 2222 |}; init := true |},
     extend boot [EvServerNew (port {| port := 2222 |})]).
Proof.
  split; [reflexivity|]. split; [reflexivity|].
  apply (setup_module_once calm at_import boot {| port := 2222 |} 2); reflexivity.
Defined.

(** X11.  [cleanup_module] undoes the set-up only in part: the server is
    dropped but the flag stays set.  From then on [test_close] fails with
    [AttributeError], and the next [setup_module] constructs a server
    again.  Before any set-up [cleanup_module] does nothing. *)
Theorem cleanup_module_then env g w ns :
  init g = true ->
  SSHServer env (trace w) None = Returns ns ->
  cleanup_module g = {| ssh_server := None; init := true |} /\
  test_close env (cleanup_module g) w
  = Some (Raises (AttributeError "'NoneType' object has no attribute 'port'"), w) /\
  setup_module env (cleanup_module g) w
  = (Returns tt, {| ssh_server := Some ns; init := true |}, extend w [EvServerNew (port ns)]) /\
  cleanup_module at_import = at_import.
Proof.
  intros Hinit Hns. unfold cleanup_module. rewrite Hinit.
  split; [reflexivity|]. split; [reflexivity|]. split; [|reflexivity].
  unfold setup_module. simpl. rewrite Hns. reflexivity.
Qed.

Lemma cleanup_module_then_witness :
  init {| ssh_server := Some {| port := 2222 |}; init := true |} = true /\
  SSHServer calm (trace boot) None = Returns {| port := 2222 |} /\
  (cleanup_module {| ssh_server := Some {| port := 2222 |}; init := true |}
   = {| ssh_server := None; init := true |} /\
   test_close calm (cleanup_module {| ssh_server := Some {| port := 2222 |}; init := true |}) boot
   = Some (Raises (AttributeError "'NoneType' object has no attribute 'port'"), boot) /\
   setup_module calm (cleanup_module {| ssh_server := Some {| port := 2222 |}; init := true |}) boot
   = (Returns tt, {| ssh_server := Some {| port := 2222 |}; init := true |},
      extend boot [EvServerNew (port {| port := 2222 |})]) /\
   cleanup_module at_import = at_import).
Proof.
  split; [reflexivity|]. split; [reflexivity|].
  apply (cleanup_module_then calm {| ssh_server := Some {| port := 2222 |}; init := true |}
           boot {| port := 2222 |}); reflexivity.
Defined.

End TestServerExtras.

(** * Further properties of sshutil/host.py *)

Module HostExtras.
Import host.

(** *** What one call can do *)

Lemma omap_snoc_nil {A B} (f : A -> option B) (l : list A) (x : A) :
  f x = None -> omap f (l ++ [x]) = omap f l.
Proof. intros H. rewrite omap_app. simpl. rewrite H. apply app_nil_r. Qed.

(** The effect of [_get_sftp], by whether a client was stored before. *)
Lemma get_sftp_effect env self tr r self' tr' :
  _get_sftp env self tr = (r, self', tr') ->
  cwd self' = cwd self /\ cmd_class self' = cmd_class self /\
  session_class self' = session_class self /\
  exists new, tr' = tr ++ new /\ puts new = [] /\
    match sftp self with
    | Some c => self' = self /\ new = [] /\ r = Returns c
    | None =>
        (length (sessions_opened new) <= 1)%nat /\
        ((sftp self' = None /\ clients_built new = [] /\ chdirs new = [] /\
          exists e, r = Raises e) \/
         (exists c, sftp self' = Some c /\ sftp_session self' = Some {| chan := sock c |} /\
            sessions_opened new = [{| chan := sock c |}] /\
            clients_built new = [sock c] /\ (length (chdirs new) <= 1)%nat /\
            (r = Returns c \/ (exists e, r = Raises e /\ chdirs new = []))))
    end.
Proof.
  unfold _get_sftp. intros H.
  destruct (sftp self) as [c|] eqn:Hsftp.
  { injection H as <- <- <-. repeat split. exists []. rewrite app_nil_r. auto. }
  destruct (session_class self) as [cls|] eqn:Hcls.
  2: { injection H as <- <- <-. repeat split; try assumption. exists [].
       rewrite app_nil_r. repeat split; simpl; [lia|]. left. eauto 6. }
  destruct (open_session env tr cls "sftp") as [s|e].
  2: { injection H as <- <- <-. repeat split; try assumption. exists [].
       rewrite app_nil_r. repeat split; simpl; [lia|]. left. eauto 6. }
  destruct (sftp_client_raises env (tr ++ [EvSession cls "sftp" s]) (chan s)) as [e|].
  { simpl in H. injection H as <- <- <-. simpl.
    repeat split; try assumption. exists [EvSession cls "sftp" s].
    repeat split; simpl; [lia|]. left. eauto 6. }
  simpl in H.
  destruct (chdir_raises env _ (chan s) (cwd self)) as [e|];
    injection H as <- <- <-; simpl; repeat split; try assumption.
  - exists [EvSession cls "sftp" s; EvSFTPClient (chan s)].
    split; [rewrite <- app_assoc; reflexivity|]. repeat split; simpl; [lia|].
    right. exists {| sock := chan s |}. destruct s. simpl.
    repeat split; [lia|]. right. eauto.
  - exists [EvSession cls "sftp" s; EvSFTPClient (chan s); EvChdir (chan s) (cwd self)].
    split; [rewrite <- !app_assoc; reflexivity|]. repeat split; simpl; [lia|].
    right. exists {| sock := chan s |}. destruct s. simpl.
    repeat split; [lia|]. left. reflexivity.
Qed.

(** A client that [_get_sftp] returns is the one stored on the Host. *)
Lemma get_sftp_returns_stored env self tr c self' tr' :
  _get_sftp env self tr = (Returns c, self', tr') -> sftp self' = Some c.
Proof.
  intros H. destruct (get_sftp_effect _ _ _ _ _ _ H) as (_ & _ & _ & new & _ & _ & Hm).
  destruct (sftp self) as [c0|] eqn:Hs.
  - destruct Hm as (-> & _ & [= ->]). exact Hs.
  - destruct Hm as [_ [(_ & _ & _ & e & ?)|(c1 & H1 & _ & _ & _ & _ & [[= ->]|(e & ? & _)])]];
      [discriminate|exact H1|discriminate].
Qed.

Lemma get_sftp_call_effect env self tr r self' tr' :
  _get_sftp env self tr = (r, self', tr') ->
  exists new, tr' = tr ++ new /\ puts new = [] /\ call_effect self self' new.
Proof.
  intros H. destruct (get_sftp_effect _ _ _ _ _ _ H)
    as (Hcwd & Hcmd & Hcls & new & -> & Hputs & Heff).
  exists new. split; [reflexivity|]. split; [exact Hputs|].
  unfold call_effect. repeat split; try assumption.
  destruct (sftp self) as [c|].
  - destruct Heff as (-> & -> & _). auto.
  - destruct Heff as [Hlen [(H1 & H2 & H3 & _)|(c & H1 & H2 & H3 & H4 & H5 & _)]].
    + split; [exact Hlen|]. left. auto.
    + split; [exact Hlen|]. right. eauto 7.
Qed.

(** The effect of [copy_to], and what its outcome says about uploads. *)
Lemma copy_to_effect env self localfile remotefile tr res self' tr' :
  copy_to env self localfile remotefile tr = (res, self', tr') ->
  exists new, tr' = tr ++ new /\ call_effect self self' new /\
    match res with
    | Returns _ =>
        (session_class self = None /\ new = []) \/
        (exists c, sftp self' = Some c /\ puts new = [(sock c, localfile, remotefile)])
    | Raises _ => puts new = []
    end.
Proof.
  unfold copy_to. intros H.
  destruct (session_class self) as [cls|] eqn:Hcls.
  2: { injection H as <- <- <-. exists []. rewrite app_nil_r. split; [reflexivity|].
       split; [|left; auto]. unfold call_effect. rewrite Hcls.
       repeat split. destruct (sftp self); simpl; auto with lia. }
  destruct (_get_sftp env self tr) as [[r self1] tr1] eqn:Hget.
  destruct (get_sftp_call_effect _ _ _ _ _ _ Hget) as (new & -> & Hputs & Heff).
  destruct r as [c|e].
  - pose proof (get_sftp_returns_stored _ _ _ _ _ _ Hget) as Hstored.
    destruct (put_raises env (tr ++ new) (sock c) localfile remotefile) as [e|];
      injection H as <- <- <-.
    + exists new. split; [reflexivity|]. split; [exact Heff|exact Hputs].
    + exists (new ++ [EvPut (sock c) localfile remotefile]).
      split; [symmetry; apply app_assoc|]. split.
      * destruct Heff as (H1 & H2 & H3 & H4). unfold call_effect.
        repeat split; try assumption.
        unfold sessions_opened, clients_built, chdirs in *.
        rewrite !omap_snoc_nil by reflexivity. exact H4.
      * right. exists c. split; [exact Hstored|].
        unfold puts in *. rewrite omap_app, Hputs. reflexivity.
  - injection H as <- <- <-. exists new. split; [reflexivity|]. split; [exact Heff|exact Hputs].
Qed.

Lemma call_call_effect env c self tr :
  exists new, snd (call env c self tr) = tr ++ new /\
              call_effect self (fst (call env c self tr)) new.
Proof.
  destruct c as [|l r]; simpl.
  - destruct (_get_sftp env self tr) as [[res self'] tr'] eqn:H.
    destruct (get_sftp_call_effect _ _ _ _ _ _ H) as (new & -> & _ & Heff). eauto.
  - destruct (copy_to env self l r tr) as [[res self'] tr'] eqn:H.
    destruct (copy_to_effect _ _ _ _ _ _ _ _ H) as (new & -> & Heff & _). eauto.
Qed.

(** With a client stored, no sequence of calls changes the Host, opens a
    session, builds a client or changes directory. *)
Lemma calls_stored env cs : forall self tr c,
  sftp self = Some c ->
  exists new, calls env cs self tr = (self, tr ++ new) /\
    sessions_opened new = [] /\ clients_built new = [] /\ chdirs new = [].
Proof.
  induction cs as [|c0 cs IH]; intros self tr c Hs; simpl.
  - exists []. rewrite app_nil_r. auto.
  - destruct (call_call_effect env c0 self tr) as (new1 & Htr & Heff).
    destruct (call env c0 self tr) as [self1 tr1]. simpl in *. subst tr1.
    destruct Heff as (_ & _ & _ & Hm). rewrite Hs in Hm.
    destruct Hm as (-> & H1 & H2 & H3).
    destruct (IH self (tr ++ new1) c Hs) as (new2 & -> & H4 & H5 & H6).
    exists (new1 ++ new2). split; [rewrite app_assoc; reflexivity|].
    unfold sessions_opened, clients_built, chdirs in *.
    rewrite !omap_app, H1, H2, H3, H4, H5, H6. auto.
Qed.

(** *** Sequences of calls *)

(** X12.  No sequence of [_get_sftp] and [copy_to] calls changes the
    directory, the command class or the session class of a Host; the trace
    only grows; and a Host that starts with a client stored is left
    exactly as it was. *)
Theorem calls_keep_attributes env cs self tr :
  cwd (fst (calls env cs self tr)) = cwd self /\
  cmd_class (fst (calls env cs self tr)) = cmd_class self /\
  session_class (fst (calls env cs self tr)) = session_class self /\
  (exists new, snd (calls env cs self tr) = tr ++ new) /\
  (forall c, sftp self = Some c -> fst (calls env cs self tr) = self).
Proof.
  revert self tr. induction cs as [|c0 cs IH]; intros self tr; simpl.
  - repeat split; auto. exists []. symmetry. apply app_nil_r.
  - destruct (call_call_effect env c0 self tr) as (new1 & Htr & Heff).
    destruct (call env c0 self tr) as [self1 tr1]. simpl in *. subst tr1.
    destruct (IH self1 (tr ++ new1)) as (H1 & H2 & H3 & [new2 H4] & H5).
    destruct Heff as (E1 & E2 & E3 & Em).
    split; [congruence|]. split; [congruence|]. split; [congruence|]. split.
    + exists (new1 ++ new2). rewrite H4. symmetry. apply app_assoc.
    + intros c Hs. rewrite Hs in Em. destruct Em as (-> & _). apply (H5 c Hs).
Qed.

(** X13.  Starting without a client, a sequence of calls opens at most
    one session per call, changes directory at most once, and builds at
    most one SFTP client: none if the Host ends without a client, and
    otherwise exactly the stored one, on the channel of the session that
    was opened last. *)
Theorem calls_build_one_client env cs self tr :
  sftp self = None ->
  exists new,
    snd (calls env cs self tr) = tr ++ new /\
    (length (sessions_opened new) <= length cs)%nat /\
    (length (chdirs new) <= 1)%nat /\
    match sftp (fst (calls env cs self tr)) with
    | None => clients_built new = [] /\ chdirs new = []
    | Some c =>
        clients_built new = [sock c] /\
        sftp_session (fst (calls env cs self tr)) = Some {| chan := sock c |} /\
        last (sessions_opened new) = Some {| chan := sock c |}
    end.
Proof.
  revert self tr. induction cs as [|c0 cs IH]; intros self tr Hnone; simpl.
  - exists []. rewrite app_nil_r, Hnone. simpl. auto with lia.
  - destruct (call_call_effect env c0 self tr) as (new1 & Htr & Heff).
    destruct (call env c0 self tr) as [self1 tr1]. simpl in *. subst tr1.
    destruct Heff as (_ & _ & _ & Em). rewrite Hnone in Em.
    destruct Em as [Hlen [(Hs1 & Hc1 & Hd1)|(c & Hs1 & Hss1 & Ho1 & Hc1 & Hd1)]].
    + destruct (IH self1 (tr ++ new1) Hs1) as (new2 & H2 & Hl2 & Hd2 & Hm).
      exists (new1 ++ new2). split; [rewrite H2; symmetry; apply app_assoc|].
      unfold sessions_opened, clients_built, chdirs in *.
      rewrite !omap_app, !length_app, Hc1, Hd1. simpl.
      split; [lia|]. split; [exact Hd2|].
      destruct (sftp (fst (calls env cs self1 (tr ++ new1)))) as [c|]; [|exact Hm].
      destruct Hm as (Hm1 & Hm2 & Hm3). split; [exact Hm1|]. split; [exact Hm2|].
      rewrite last_app, Hm3. reflexivity.
    + destruct (calls_stored env cs self1 (tr ++ new1) c Hs1) as (new2 & -> & H4 & H5 & H6).
      exists (new1 ++ new2). simpl. split; [symmetry; apply app_assoc|].
      unfold sessions_opened, clients_built, chdirs in *.
      rewrite !omap_app, !length_app, H4, H5, H6, Ho1, Hc1, Hs1, !app_nil_r. simpl.
      split; [lia|]. split; [lia|]. auto.
Qed.

Lemma calls_build_one_client_witness :
  sftp remote_host = None /\
  exists new,
    snd (calls (sample_env true) [CallCopyTo "a" "b"; CallGetSftp; CallCopyTo "c" "d"]
           remote_host []) = [] ++ new /\
    (length (sessions_opened new)
     <= length [CallCopyTo "a" "b"; CallGetSftp; CallCopyTo "c" "d"])%nat /\
    (length (chdirs new) <= 1)%nat /\
    match sftp (fst (calls (sample_env true)
                       [CallCopyTo "a" "b"; CallGetSftp; CallCopyTo "c" "d"]
                       remote_host [])) with
    | None => clients_built new = [] /\ chdirs new = []
    | Some c =>
        clients_built new = [sock c] /\
        sftp_session (fst (calls (sample_env true)
                             [CallCopyTo "a" "b"; CallGetSftp; CallCopyTo "c" "d"]
                             remote_host [])) = Some {| chan := sock c |} /\
        last (sessions_opened new) = Some {| chan := sock c |}
    end.
Proof.
  split; [reflexivity|].
  apply (calls_build_one_client (sample_env true)
           [CallCopyTo "a" "b"; CallGetSftp; CallCopyTo "c" "d"] remote_host []).
  reflexivity.
Defined.

(** The three calls of the witness in full: one session, one client, one
    directory change, two uploads. *)
Example three_calls_trace :
  snd (calls (sample_env true) [CallCopyTo "a" "b"; CallGetSftp; CallCopyTo "c" "d"]
         remote_host [])
  = [EvSession (SSHClientSession example_kw) "sftp" {| chan := 7 |};
     EvSFTPClient 7; EvChdir 7 "/home/user"; EvPut 7 "a" "b"; EvPut 7 "c" "d"].
Proof. reflexivity. Qed.

(** X14.  A directory change that fails is not tried again.  When
    [chdir] raises in the call that builds the client, the call raises,
    but the client stays stored; no later call changes directory, and a
    later [copy_to] uploads through that client all the same. *)
Theorem failed_chdir_is_not_retried env self tr cls s e :
  sftp self = None ->
  session_class self = Some cls ->
  open_session env tr cls "sftp" = Returns s ->
  sftp_client_raises env (tr ++ [EvSession cls "sftp" s]) (chan s) = None ->
  chdir_raises env ((tr ++ [EvSession cls "sftp" s]) ++ [EvSFTPClient (chan s)])
    (chan s) (cwd self) = Some e ->
  exists self1,
    _get_sftp env self tr
    = (Raises e, self1, (tr ++ [EvSession cls "sftp" s]) ++ [EvSFTPClient (chan s)]) /\
    sftp self1 = Some {| sock := chan s |} /\
    (forall cs tr2, exists new,
        calls env cs self1 tr2 = (self1, tr2 ++ new) /\ chdirs new = []) /\
    (forall localfile remotefile tr2,
        put_raises env tr2 (chan s) localfile remotefile = None ->
        copy_to env self1 localfile remotefile tr2
        = (Returns tt, self1, tr2 ++ [EvPut (chan s) localfile remotefile])).
Proof.
  intros Hnone Hcls Hopen Hclient Hchdir.
  eexists. split.
  { unfold _get_sftp. rewrite Hnone, Hcls, Hopen, Hclient. simpl. rewrite Hchdir.
    reflexivity. }
  split; [reflexivity|]. split.
  - intros cs tr2.
    destruct (calls_stored env cs
                {| sftp := Some {| sock := chan s |}; sftp_session := Some s;
                   cwd := cwd self; cmd_class := cmd_class self;
                   session_class := Some cls |} tr2 {| sock := chan s |} eq_refl)
      as (new & Hcalls & _ & _ & Hd).
    exists new. split; assumption.
  - intros localfile remotefile tr2 Hput. unfold copy_to, _get_sftp. simpl.
    rewrite Hput. reflexivity.
Qed.

Lemma failed_chdir_is_not_retried_witness :
  sftp remote_host = None /\
  session_class remote_host = Some (SSHClientSession example_kw) /\
  open_session no_dir_env [] (SSHClientSession example_kw) "sftp" = Returns {| chan := 7 |} /\
  sftp_client_raises no_dir_env
    ([] ++ [EvSession (SSHClientSession example_kw) "sftp" {| chan := 7 |}])
    (chan {| chan := 7 |}) = None /\
  chdir_raises no_dir_env
    (([] ++ [EvSession (SSHClientSession example_kw) "sftp" {| chan := 7 |}])
       ++ [EvSFTPClient (chan {| chan := 7 |})])
    (chan {| chan := 7 |}) (cwd remote_host) = Some (OtherError "IOError") /\
  exists self1,
    _get_sftp no_dir_env remote_host []
    = (Raises (OtherError "IOError"), self1,
       ([] ++ [EvSession (SSHClientSession example_kw) "sftp" {| chan := 7 |}])
         ++ [EvSFTPClient (chan {| chan := 7 |})]) /\
    sftp self1 = Some {| sock := chan {| chan := 7 |} |} /\
    (forall cs tr2, exists new,
        calls no_dir_env cs self1 tr2 = (self1, tr2 ++ new) /\ chdirs new = []) /\
    (forall localfile remotefile tr2,
        put_raises no_dir_env tr2 (chan {| chan := 7 |}) localfile remotefile = None ->
        copy_to no_dir_env self1 localfile remotefile tr2
        = (Returns tt, self1, tr2 ++ [EvPut (chan {| chan := 7 |}) localfile remotefile])).
Proof.
  split; [reflexivity|]. split; [reflexivity|]. split; [reflexivity|].
  split; [reflexivity|]. split; [reflexivity|].
  apply (failed_chdir_is_not_retried no_dir_env remote_host []
           (SSHClientSession example_kw) {| chan := 7 |} (OtherError "IOError"));
    reflexivity.
Defined.

(** X15.  While the construction of the SFTP client keeps failing, every
    call of [_get_sftp] opens one more session and raises
    [AttributeError]: after [n] calls [n] sessions have been opened, no
    client has been built and none is stored. *)
Theorem failed_client_opens_session_per_call env cls (n : nat) :
  (forall tr0, exists s, open_session env tr0 cls "sftp" = Returns s) ->
  (forall tr0 ch, sftp_client_raises env tr0 ch <> None) ->
  forall self tr,
  sftp self = None ->
  session_class self = Some cls ->
  exists self' tr',
    get_sftp_times n env self tr
    = (replicate n (Raises (AttributeError "'NoneType' object has no attribute 'chdir'")),
       self', tr') /\
    sftp self' = None /\
    length (sessions_opened tr') = (length (sessions_opened tr) + n)%nat /\
    clients_built tr' = clients_built tr.
Proof.
  intros Hopen Hfail. induction n as [|n IH]; intros self tr Hnone Hcls; simpl.
  - exists self, tr. repeat split; auto with lia.
  - destruct (Hopen tr) as [s Hs].
    assert (Hcall : _get_sftp env self tr
              = (Raises (AttributeError "'NoneType' object has no attribute 'chdir'"),
                 {| sftp := None; sftp_session := Some s; cwd := cwd self;
                    cmd_class := cmd_class self; session_class := session_class self |},
                 tr ++ [EvSession cls "sftp" s])).
    { unfold _get_sftp. rewrite Hnone, Hcls, Hs.
      destruct (sftp_client_raises env (tr ++ [EvSession cls "sftp" s]) (chan s)) eqn:E;
        [reflexivity|]. exfalso. exact (Hfail _ _ E). }
    rewrite Hcall.
    destruct (IH {| sftp := None; sftp_session := Some s; cwd := cwd self;
                    cmd_class := cmd_class self; session_class := session_class self |}
                 (tr ++ [EvSession cls "sftp" s]) eq_refl Hcls)
      as (self' & tr' & Hrun & Hs' & Hlen & Hcl).
    rewrite Hrun. exists self', tr'. split; [reflexivity|]. split; [exact Hs'|].
    unfold sessions_opened, clients_built in *.
    rewrite omap_app, length_app in Hlen. rewrite omap_app in Hcl. simpl in *.
    rewrite app_nil_r in Hcl. split; [lia|exact Hcl].
Qed.

Lemma failed_client_opens_session_per_call_witness :
  (forall tr0, exists s,
      open_session (sample_env false) tr0 (SSHClientSession example_kw) "sftp" = Returns s) /\
  (forall tr0 ch, sftp_client_raises (sample_env false) tr0 ch <> None) /\
  sftp remote_host = None /\
  session_class remote_host = Some (SSHClientSession example_kw) /\
  exists self' tr',
    get_sftp_times 3 (sample_env false) remote_host []
    = (replicate 3 (Raises (AttributeError "'NoneType' object has no attribute 'chdir'")),
       self', tr') /\
    sftp self' = None /\
    length (sessions_opened tr') = (length (sessions_opened []) + 3)%nat /\
    clients_built tr' = clients_built [].
Proof.
  assert (H1 : forall tr0, exists s,
             open_session (sample_env false) tr0 (SSHClientSession example_kw) "sftp"
             = Returns s) by (intros tr0; exists {| chan := 7 |}; reflexivity).
  assert (H2 : forall tr0 ch, sftp_client_raises (sample_env false) tr0 ch <> None)
    by (intros tr0 ch; discriminate).
  split; [exact H1|]. split; [exact H2|]. split; [reflexivity|]. split; [reflexivity|].
  exact (failed_client_opens_session_per_call (sample_env false)
           (SSHClientSession example_kw) 3 H1 H2 remote_host [] eq_refl eq_refl).
Defined.


(** X17.  The first [copy_to] on a remote Host, every step going well,
    makes four calls in this order: it opens a session on the [sftp]
    subsystem, builds the client on that session's channel, changes to the
    Host's directory, and uploads; it stores both session and client. *)
Theorem first_copy_to_sets_up env self tr cls s localfile remotefile :
  sftp self = None ->
  session_class self = Some cls ->
  open_session env tr cls "sftp" = Returns s ->
  sftp_client_raises env (tr ++ [EvSession cls "sftp" s]) (chan s) = None ->
  chdir_raises env ((tr ++ [EvSession cls "sftp" s]) ++ [EvSFTPClient (chan s)])
    (chan s) (cwd self) = None ->
  put_raises env
    (((tr ++ [EvSession cls "sftp" s]) ++ [EvSFTPClient (chan s)])
       ++ [EvChdir (chan s) (cwd self)])
    (chan s) localfile remotefile = None ->
  copy_to env self localfile remotefile tr
  = (Returns tt,
     {| sftp := Some {| sock := chan s |}; sftp_session := Some s; cwd := cwd self;
        cmd_class := cmd_class self; session_class := session_class self |},
     tr ++ [EvSession cls "sftp" s; EvSFTPClient (chan s); EvChdir (chan s) (cwd self);
            EvPut (chan s) localfile remotefile]).
Proof.
  intros Hnone Hcls Hopen Hclient Hchdir Hput.
  unfold copy_to, _get_sftp. rewrite Hcls, Hnone, Hopen, Hclient. simpl.
  rewrite Hchdir. simpl. rewrite Hput, <- !app_assoc. reflexivity.
Qed.

Lemma first_copy_to_sets_up_witness :
  sftp remote_host = None /\
  session_class remote_host = Some (SSHClientSession example_kw) /\
  open_session (sample_env true) [] (SSHClientSession example_kw) "sftp"
  = Returns {| chan := 7 |} /\
  sftp_client_raises (sample_env true)
    ([] ++ [EvSession (SSHClientSession example_kw) "sftp" {| chan := 7 |}])
    (chan {| chan := 7 |}) = None /\
  chdir_raises (sample_env true)
    (([] ++ [EvSession (SSHClientSession example_kw) "sftp" {| chan := 7 |}])
       ++ [EvSFTPClient (chan {| chan := 7 |})])
    (chan {| chan := 7 |}) (cwd remote_host) = None /\
  put_raises (sample_env true)
    ((([] ++ [EvSession (SSHClientSession example_kw) "sftp" {| chan := 7 |}])
        ++ [EvSFTPClient (chan {| chan := 7 |})])
       ++ [EvChdir (chan {| chan := 7 |}) (cwd remote_host)])
    (chan {| chan := 7 |}) "a" "b" = None /\
  copy_to (sample_env true) remote_host "a" "b" []
  = (Returns tt,
     {| sftp := Some {| sock := chan {| chan := 7 |} |};
        sftp_session := Some {| chan := 7 |}; cwd := cwd remote_host;
        cmd_class := cmd_class remote_host; session_class := session_class remote_host |},
     [] ++ [EvSession (SSHClientSession example_kw) "sftp" {| chan := 7 |};
            EvSFTPClient (chan {| chan := 7 |});
            EvChdir (chan {| chan := 7 |}) (cwd remote_host);
            EvPut (chan {| chan := 7 |}) "a" "b"]).
Proof.
  split; [reflexivity|]. split; [reflexivity|]. split; [reflexivity|].
  split; [reflexivity|]. split; [reflexivity|]. split; [reflexivity|].
  apply (first_copy_to_sets_up (sample_env true) remote_host []
           (SSHClientSession example_kw) {| chan := 7 |} "a" "b"); reflexivity.
Defined.

(** *** Construction *)

(** What a constructed Host looks like, by the two arguments that decide
    it. *)
Lemma init_shape env server port cwd0 username password debug cache proxycmd tr self tr' :
  __init__ env server port cwd0 username password debug cache proxycmd tr = (Returns self, tr') ->
  sftp self = None /\ sftp_session self = None /\
  (if truthy server
   then exists s, server = Some s /\
          cmd_class self
          = SSHCommand {| ca_host := s; ca_port := port; ca_username := username;
                          ca_password := password; ca_debug := debug;
                          ca_cache := cache; ca_proxycmd := proxycmd |} /\
          session_class self
          = Some (SSHClientSession
                    {| ca_host := s; ca_port := port; ca_username := username;
                       ca_password := password; ca_debug := debug;
                       ca_cache := cache; ca_proxycmd := proxycmd |})
   else cmd_class self = ShellCommand debug /\ session_class self = None) /\
  (if truthy cwd0
   then cwd0 = Some (cwd self) /\ tr' = tr
   else exists out, cwd self = strip out).
Proof.
  unfold __init__. intros H.
  assert (Hcls : forall classes d,
    classes = match server with
              | Some s =>
                  if truthy server
                  then (SSHCommand {| ca_host := s; ca_port := port; ca_username := username;
                                      ca_password := password; ca_debug := debug;
                                      ca_cache := cache; ca_proxycmd := proxycmd |},
                        Some (SSHClientSession
                                {| ca_host := s; ca_port := port; ca_username := username;
                                   ca_password := password; ca_debug := debug;
                                   ca_cache := cache; ca_proxycmd := proxycmd |}))
                  else (ShellCommand debug, None)
              | None => (ShellCommand debug, None)
              end ->
    self = {| sftp := None; sftp_session := None; cwd := d;
              cmd_class := fst classes; session_class := snd classes |} ->
    sftp self = None /\ sftp_session self = None /\
    (if truthy server
     then exists s, server = Some s /\
            cmd_class self
            = SSHCommand {| ca_host := s; ca_port := port; ca_username := username;
                            ca_password := password; ca_debug := debug;
                            ca_cache := cache; ca_proxycmd := proxycmd |} /\
            session_class self
            = Some (SSHClientSession
                      {| ca_host := s; ca_port := port; ca_username := username;
                         ca_password := password; ca_debug := debug;
                         ca_cache := cache; ca_proxycmd := proxycmd |})
     else cmd_class self = ShellCommand debug /\ session_class self = None) /\
    cwd self = d).
  { intros classes d -> ->. simpl.
    destruct server as [s|]; [destruct (truthy (Some s)) eqn:Ht|]; simpl;
      repeat split; eauto. }
  destruct cwd0 as [d|]; [destruct (truthy (Some d)) eqn:Hd|].
  - injection H as <- <-.
    destruct (Hcls _ d eq_refl eq_refl) as (H1 & H2 & H3 & H4).
    repeat split; try assumption; try (simpl in *; congruence).
  - destruct (Command_run _ _ _ _) as [[out|e] tr1]; [|discriminate].
    injection H as <- <-.
    destruct (Hcls _ (strip out) eq_refl eq_refl) as (H1 & H2 & H3 & H4).
    repeat split; try assumption. exists out. exact H4.
  - destruct (Command_run _ _ _ _) as [[out|e] tr1]; [|discriminate].
    injection H as <- <-.
    destruct (Hcls _ (strip out) eq_refl eq_refl) as (H1 & H2 & H3 & H4).
    repeat split; try assumption. exists out. exact H4.
Qed.

(** X18.  A Host constructed with a non-empty server name sends its
    commands and its SFTP sessions to the same target: both classes are
    frozen with the same host, port, user, password, debug flag, cache
    and proxy command, the ones given to the constructor. *)
Theorem init_remote_target env server port cwd0 username password debug cache proxycmd
    tr self tr' :
  truthy server = true ->
  __init__ env server port cwd0 username password debug cache proxycmd tr = (Returns self, tr') ->
  exists s, server = Some s /\
    cmd_class self
    = SSHCommand {| ca_host := s; ca_port := port; ca_username := username;
                    ca_password := password; ca_debug := debug;
                    ca_cache := cache; ca_proxycmd := proxycmd |} /\
    session_class self
    = Some (SSHClientSession
              {| ca_host := s; ca_port := port; ca_username := username;
                 ca_password := password; ca_debug := debug;
                 ca_cache := cache; ca_proxycmd := proxycmd |}).
Proof.
  intros Ht Hinit.
  destruct (init_shape _ _ _ _ _ _ _ _ _ _ _ _ Hinit) as (_ & _ & Hserver & _).
  rewrite Ht in Hserver. exact Hserver.
Qed.

Lemma init_remote_target_witness :
  truthy (Some "example.org") = true /\
  __init__ (sample_env true) (Some "example.org") 22 (Some "/home/user")
    None None false None None []
  = (Returns remote_host, []) /\
  exists s, Some "example.org" = Some s /\
    cmd_class remote_host
    = SSHCommand {| ca_host := s; ca_port := 22; ca_username := None;
                    ca_password := None; ca_debug := false;
                    ca_cache := None; ca_proxycmd := None |} /\
    session_class remote_host
    = Some (SSHClientSession
              {| ca_host := s; ca_port := 22; ca_username := None;
                 ca_password := None; ca_debug := false;
                 ca_cache := None; ca_proxycmd := None |}).
Proof.
  split; [reflexivity|]. split; [reflexivity|].
  apply (init_remote_target (sample_env true) (Some "example.org") 22 (Some "/home/user")
           None None false None None [] remote_host []); reflexivity.
Defined.

(** X19.  Given a non-empty [cwd], the constructor cannot fail and makes
    no call at all: it returns a Host with that directory, no client and
    no session, and leaves the trace as it was. *)
Theorem init_with_cwd env server port cwd0 username password debug cache proxycmd tr :
  truthy cwd0 = true ->
  exists self,
    __init__ env server port cwd0 username password debug cache proxycmd tr
    = (Returns self, tr) /\
    cwd0 = Some (cwd self) /\ sftp self = None /\ sftp_session self = None.
Proof.
  intros Ht. unfold __init__. destruct cwd0 as [d|]; [|discriminate]. rewrite Ht.
  eexists. split; [reflexivity|]. repeat split.
Qed.

Lemma init_with_cwd_witness :
  truthy (Some "/home/user") = true /\
  exists self,
    __init__ (sample_env true) (Some "example.org") 22 (Some "/home/user")
      None None false None None []
    = (Returns self, []) /\
    Some "/home/user" = Some (cwd self) /\ sftp self = None /\ sftp_session self = None.
Proof.
  split; [reflexivity|].
  apply (init_with_cwd (sample_env true) (Some "example.org") 22 (Some "/home/user")
           None None false None None []).
  reflexivity.
Defined.

(** *** White space around the directory *)

Lemma lstrip_no_lead s : starts_with_space (lstrip s) = false.
Proof.
  induction s as [|a s IH]; simpl; [reflexivity|].
  destruct (Ascii.is_space a) eqn:Ha; [exact IH|]. simpl. exact Ha.
Qed.

Lemma lstrip_suffix s : exists ws, s = String.app ws (lstrip s).
Proof.
  induction s as [|a s [ws IH]]; simpl.
  - exists "". reflexivity.
  - destruct (Ascii.is_space a).
    + exists (String a ws).
      change (String a s = String a (String.app ws (lstrip s))). f_equal. exact IH.
    + exists "". reflexivity.
Qed.

Lemma string_app_nil_r s : String.app s "" = s.
Proof.
  induction s as [|a s IH]; [reflexivity|].
  change (String a (String.app s "") = String a s). rewrite IH. reflexivity.
Qed.

Lemma rev_app_app a : forall b c,
  String.rev_app (String.app a b) c = String.rev_app b (String.rev_app a c).
Proof.
  induction a as [|h a IH]; intros b c; [reflexivity|].
  change (String.rev_app (String.app a b) (String h c)
          = String.rev_app b (String.rev_app a (String h c))).
  apply IH.
Qed.

Lemma rev_app_rev_app a : forall b c,
  String.rev_app (String.rev_app a b) c = String.rev_app b (String.app a c).
Proof.
  induction a as [|h a IH]; intros b c; [reflexivity|].
  change (String.rev_app (String.rev_app a (String h b)) c
          = String.rev_app b (String.app (String h a) c)).
  rewrite IH. reflexivity.
Qed.

Lemma string_rev_involutive s : String.rev (String.rev s) = s.
Proof.
  unfold String.rev. rewrite rev_app_rev_app.
  change (String.app s "" = s). apply string_app_nil_r.
Qed.

(** The first character of a reversal does not depend on what the
    reversal is put in front of. *)
Lemma rev_app_head u : forall a acc1 acc2,
  starts_with_space (String.rev_app u (String a acc1))
  = starts_with_space (String.rev_app u (String a acc2)).
Proof.
  induction u as [|h u IH]; intros a acc1 acc2; [reflexivity|].
  change (starts_with_space (String.rev_app u (String h (String a acc1)))
          = starts_with_space (String.rev_app u (String h (String a acc2)))).
  apply IH.
Qed.

Lemma strip_no_space_ends s :
  starts_with_space (strip s) = false /\ ends_with_space (strip s) = false.
Proof.
  unfold strip, ends_with_space. rewrite string_rev_involutive.
  split; [|apply lstrip_no_lead].
  destruct (lstrip_suffix (String.rev (lstrip s))) as [ws Hws].
  destruct (lstrip (String.rev (lstrip s))) as [|h u] eqn:Hu; [reflexivity|].
  pose proof (lstrip_no_lead s) as Hlead.
  rewrite <- (string_rev_involutive (lstrip s)), Hws in Hlead.
  unfold String.rev in Hlead at 1. rewrite rev_app_app in Hlead.
  change (starts_with_space (String.rev_app u (String h (String.rev_app ws ""))) = false)
    in Hlead.
  change (starts_with_space (String.rev_app u (String h "")) = false).
  rewrite (rev_app_head u h "" (String.rev_app ws "")). exact Hlead.
Qed.

(** X20.  A Host constructed without a directory (none given, or an
    empty one) takes the output of [pwd] with the white space around it
    removed: its directory neither begins nor ends with a white space
    character, so the newline that ends the output is gone. *)
Theorem init_strips_cwd env server port cwd0 username password debug cache proxycmd
    tr self tr' :
  truthy cwd0 = false ->
  __init__ env server port cwd0 username password debug cache proxycmd tr = (Returns self, tr') ->
  starts_with_space (cwd self) = false /\ ends_with_space (cwd self) = false.
Proof.
  intros Ht Hinit.
  destruct (init_shape _ _ _ _ _ _ _ _ _ _ _ _ Hinit) as (_ & _ & _ & Hcwd).
  rewrite Ht in Hcwd. destruct Hcwd as [out ->]. apply strip_no_space_ends.
Qed.

Lemma init_strips_cwd_witness :
  truthy None = false /\
  __init__ (sample_env true) None 22 None None None false None None []
  = (Returns local_host, [EvExecute (ShellCommand false) "pwd"]) /\
  (starts_with_space (cwd local_host) = false /\ ends_with_space (cwd local_host) = false).
Proof.
  split; [reflexivity|]. split; [reflexivity|].
  apply (init_strips_cwd (sample_env true) None 22 None None None false None None []
           local_host [EvExecute (ShellCommand false) "pwd"]); reflexivity.
Defined.

(** *** Local hosts *)

(** X21.  On a Host constructed without a server name (none, or an empty
    one) [_get_sftp] raises [TypeError], there being no session class to
    call, and no sequence of [_get_sftp] and [copy_to] calls changes the
    Host or makes a call outside the module. *)
Theorem local_host_is_inert env server port cwd0 username password debug cache proxycmd
    tr0 self tr1 :
  truthy server = false ->
  __init__ env server port cwd0 username password debug cache proxycmd tr0 = (Returns self, tr1) ->
  forall tr,
    _get_sftp env self tr
    = (Raises (TypeError "'NoneType' object is not callable"), self, tr) /\
    forall cs, calls env cs self tr = (self, tr).
Proof.
  intros Ht Hinit.
  destruct (init_shape _ _ _ _ _ _ _ _ _ _ _ _ Hinit) as (Hsftp & _ & Hserver & _).
  rewrite Ht in Hserver. destruct Hserver as [_ Hcls].
  assert (Hget : forall tr, _get_sftp env self tr
            = (Raises (TypeError "'NoneType' object is not callable"), self, tr)).
  { intros tr. unfold _get_sftp. rewrite Hsftp, Hcls. reflexivity. }
  intros tr. split; [apply Hget|].
  intros cs. induction cs as [|c cs IH]; simpl; [reflexivity|].
  destruct c as [|l r]; simpl.
  - rewrite Hget. exact IH.
  - unfold copy_to. rewrite Hcls. exact IH.
Qed.

Lemma local_host_is_inert_witness :
  truthy (Some "") = false /\
  __init__ (sample_env true) (Some "") 22 None None None false None None []
  = (Returns local_host, [EvExecute (ShellCommand false) "pwd"]) /\
  forall tr,
    _get_sftp (sample_env true) local_host tr
    = (Raises (TypeError "'NoneType' object is not callable"), local_host, tr) /\
    forall cs, calls (sample_env true) cs local_host tr = (local_host, tr).
Proof.
  split; [reflexivity|]. split; [reflexivity|].
  apply (local_host_is_inert (sample_env true) (Some "") 22 None None None false None None []
           local_host [EvExecute (ShellCommand false) "pwd"]); reflexivity.
Defined.

End HostExtras.
